(** * Demand forecast service (pythonservices/server.py)

    A shallow embedding of the forecasting pipeline of [server.py]:
    [load_sales_from_supabase], [prepare_features] and [forecast].

    Modelling conventions.
    - A calendar date (a pandas [Timestamp] at midnight) is the number of
      days since 1970-01-01, a [Z].  [freq="D"] steps are [+1].
    - A float is an exact rational ([Q]); a float column that may hold NaN
      is a column of [option Q], [None] standing for NaN.  Rounding error
      of the float operations is left out.
    - A DataFrame is the list of its rows; its row labels after
      [reset_index(drop=True)] are the positions in that list.
    - The square root (used by [rolling(...).std()]) and the random forest
      ([RandomForestRegressor]) are library code: they are section
      variables, and the theorems hold for every choice of them. *)

From Stdlib Require Import String Ascii.
From Stdlib Require Import ZArith QArith Qabs Qround Qminmax List Bool Lia Lqa.
From Stdlib Require Import Sorted FinFun Permutation.
Import ListNotations.
Open Scope Z_scope.

(** ** Calendar *)

(** The proleptic Gregorian calendar fields of a day number: (year, month,
    day), month in 1..12. Used by [dt.month] and [strftime]. *)
Definition civil_from_days (z : Z) : Z * Z * Z :=
  let z := z + 719468 in
  let era := z / 146097 in
  let doe := z - era * 146097 in
  let yoe := (doe - doe / 1460 + doe / 36524 - doe / 146096) / 365 in
  let y := yoe + era * 400 in
  let doy := doe - (365 * yoe + yoe / 4 - yoe / 100) in
  let mp := (5 * doy + 2) / 153 in
  let d := doy - (153 * mp + 2) / 5 + 1 in
  let m := if mp <? 10 then mp + 3 else mp - 9 in
  (if m <=? 2 then y + 1 else y, m, d).

(** [Series.dt.dayofweek]: Monday is 0, Sunday is 6 (1970-01-01 was a
    Thursday). *)
Definition dayofweek (d : Z) : Z := (d + 3) mod 7.

(** [Series.dt.month]. *)
Definition month (d : Z) : Z := snd (fst (civil_from_days d)).

Definition digit (n : Z) : ascii := ascii_of_nat (48 + Z.to_nat (n mod 10)).

Definition pad2 (n : Z) : string :=
  String (digit (n / 10)) (String (digit n) EmptyString).

Definition pad4 (n : Z) : string :=
  String (digit (n / 1000)) (String (digit (n / 100)) (pad2 n)).

(** [strftime("%Y-%m-%d")] of a date. *)
Definition strftime (d : Z) : string :=
  let '(y, m, dd) := civil_from_days d in
  (pad4 y ++ "-" ++ pad2 m ++ "-" ++ pad2 dd)%string.

(** The day number of a calendar date, the inverse of
    [civil_from_days]. *)
Definition days_from_civil (y m d : Z) : Z :=
  let y := if m <=? 2 then y - 1 else y in
  let era := y / 400 in
  let yoe := y - era * 400 in
  let mp := if 2 <? m then m - 3 else m + 9 in
  let doy := (153 * mp + 2) / 5 + d - 1 in
  let doe := yoe * 365 + yoe / 4 - yoe / 100 + doy in
  era * 146097 + doe - 719468.

Definition digit_value (c : ascii) : option Z :=
  let n := Z.of_nat (nat_of_ascii c) in
  if (48 <=? n) && (n <=? 57) then Some (n - 48) else None.

Definition number2 (a b : ascii) : option Z :=
  match digit_value a, digit_value b with
  | Some x, Some y => Some (10 * x + y)
  | _, _ => None
  end.

(** [pd.to_datetime] (line 63) on one ISO string "YYYY-MM-DD": the date
    it denotes, [None] when the string is not a date of the calendar.
    The rows of a [QueryResult] below hold dates that are already
    read. *)
Definition to_datetime (s : string) : option Z :=
  match s with
  | String y1 (String y2 (String y3 (String y4 (String s1
      (String m1 (String m2 (String s2
        (String d1 (String d2 EmptyString))))))))) =>
      match number2 y1 y2, number2 y3 y4, number2 m1 m2, number2 d1 d2 with
      | Some yh, Some yl, Some m, Some d =>
          let y := 100 * yh + yl in
          let z := days_from_civil y m d in
          let '(y', m', d') := civil_from_days z in
          if Ascii.eqb s1 "-" && Ascii.eqb s2 "-"
             && (y' =? y) && (m' =? m) && (d' =? d)
          then Some z else None
      | _, _, _, _ => None
      end
  | _ => None
  end.

(** The first and the last day a pandas [Timestamp] (64-bit nanoseconds)
    can hold at midnight: 1677-09-22 and 2262-04-11. *)
Definition Timestamp_min : Z := -106751.
Definition Timestamp_max : Z := 106751.

(** [pd.date_range(a, b, freq="D")]: every day from [a] to [b] inclusive,
    empty when [b < a]. *)
Definition date_range (a b : Z) : list Z :=
  map (fun k => a + Z.of_nat k) (seq 0 (Z.to_nat (b - a + 1))).

(** ** The data source *)

(** What lines 46-63 meet: a response that reports an error, a response
    with rows of (date, quantity_sold), or an exception raised by the
    client call, by the frame construction or by the reading of the
    dates ([e] is its text). *)
Inductive QueryResult : Type :=
| QueryError (msg : string)
| QueryData (rows : list (Z * Q))
| QueryRaises (e : string).

(** One step of [groupby("Date").sum()]: the table is kept sorted by date
    (pandas sorts the group keys), quantities of one date are added in
    order of appearance. *)
Fixpoint add_obs (d : Z) (q : Q) (t : list (Z * Q)) : list (Z * Q) :=
  match t with
  | [] => [(d, q)]
  | (d', q') :: t' =>
      if d <? d' then (d, q) :: t
      else if d =? d' then (d', (q' + q)%Q) :: t'
      else (d', q') :: add_obs d q t'
  end.

Definition groupby_sum (rows : list (Z * Q)) : list (Z * Q) :=
  fold_left (fun t r => add_obs (fst r) (snd r) t) rows [].

(** [load_sales_from_supabase]: raises [RuntimeError] on an error that
    is truthy (line 56: an empty error is none, and the response then has
    no rows), lets the exceptions of its calls pass, and else returns the
    frame with columns Date, Demand, one row per date.  [inl] carries the
    text of the exception. *)
Definition load_sales_from_supabase (res : QueryResult) : string + list (Z * Q) :=
  match res with
  | QueryError EmptyString => inr []
  | QueryError msg => inl ("Supabase error: " ++ msg)%string
  | QueryData [] => inr []
  | QueryData data => inr (groupby_sum data)
  | QueryRaises e => inl e
  end.

(** ** Series reconstruction (forecast, "fill missing dates") *)

Definition sumQ (xs : list Q) : Q := fold_left Qplus xs 0%Q.

(** [raw["Date"].min()] and [.max()] of a frame with at least one row. *)
Definition date_min (d0 : Z) (raw : list (Z * Q)) : Z :=
  fold_left Z.min (map fst raw) d0.
Definition date_max (d0 : Z) (raw : list (Z * Q)) : Z :=
  fold_left Z.max (map fst raw) d0.

(** The cell of [raw.set_index("Date").reindex(...)] at date [d]: the
    demand of the row labelled [d], NaN when there is none. *)
Fixpoint lookup_date (d : Z) (raw : list (Z * Q)) : option Q :=
  match raw with
  | [] => None
  | (d', q) :: raw' => if d =? d' then Some q else lookup_date d raw'
  end.

(** [.fillna(0)] on one cell. *)
Definition fillna0 (c : option Q) : Q :=
  match c with Some q => q | None => 0%Q end.

(** Lines 108-111: the frame over the full daily range, zero-filled. *)
Definition reconstruct (raw : list (Z * Q)) : list (Z * Q) :=
  match raw with
  | [] => []
  | (d0, _) :: _ =>
      let full_range := date_range (date_min d0 raw) (date_max d0 raw) in
      map (fun d => (d, fillna0 (lookup_date d raw))) full_range
  end.

(** ** Feature engineering ([prepare_features]) *)

(** A row of the frame built by [prepare_features].  The lag and rolling
    columns are NaN ([None]) where the window has too little history. *)
Record Row : Type := mkRow {
  Date : Z;
  Demand : Q;
  DayOfWeek : Z;
  Month : Z;
  Lag1 : option Q;
  Lag7 : option Q;
  Lag90 : option Q;
  RollMean7 : option Q;
  RollMean14 : option Q;
  RollStd7 : option Q;
  EMA7 : Q;
  EMA30 : Q;
  TimeIndex : Z;
  IsWeekend : Z
}.

(** [Series.shift(k)]: the values move down by [k] places, NaN enters at
    the top, the length is kept. *)
Definition shift (k : nat) (xs : list Q) : list (option Q) :=
  firstn (length xs) (repeat None k ++ map Some xs).

(** [Series.rolling(window=w).<stat>()]: the statistic of the [w] values
    ending at each row, NaN while fewer than [w] values are available
    ([min_periods] defaults to [w]). *)
Definition rolling (w : nat) (stat : list Q -> Q) (xs : list Q) : list (option Q) :=
  map (fun i => if (i + 1 <? w)%nat then None
                else Some (stat (firstn w (skipn (i + 1 - w) xs))))
      (seq 0 (length xs)).

Definition mean (xs : list Q) : Q :=
  (sumQ xs / inject_Z (Z.of_nat (length xs)))%Q.

(** [ewm(span=s, adjust=False).mean()]: y0 = x0,
    y_t = (1 - alpha) * y_(t-1) + alpha * x_t with alpha = 2 / (s + 1). *)
Fixpoint ewm_from (alpha prev : Q) (xs : list Q) : list Q :=
  match xs with
  | [] => []
  | x :: xs' =>
      let y := ((1 - alpha) * prev + alpha * x)%Q in
      y :: ewm_from alpha y xs'
  end.

Definition ewm_mean (span : Z) (xs : list Q) : list Q :=
  match xs with
  | [] => []
  | x :: xs' => x :: ewm_from (2 / inject_Z (span + 1))%Q x xs'
  end.

(** [np.arange(n)]. *)
Definition arange (n : nat) : list Z := map Z.of_nat (seq 0 n).

(** [isin([5, 6]).astype(int)] on one value. *)
Definition is_weekend (dow : Z) : Z :=
  if (dow =? 5) || (dow =? 6) then 1 else 0.

Definition is_some {A : Type} (o : option A) : bool :=
  match o with Some _ => true | None => false end.

(** The row test of [dropna()]: no NaN in any column.  Demand, the two
    EMA columns and the integer columns cannot hold NaN. *)
Definition row_defined (r : Row) : bool :=
  is_some (Lag1 r) && is_some (Lag7 r) && is_some (Lag90 r) &&
  is_some (RollMean7 r) && is_some (RollMean14 r) && is_some (RollStd7 r).

(** [df[-days:]] and [df[:-days]] are Python slices at the index [-days]:
    a negative index counts from the end and is clamped to the frame. *)
Definition slice_index {A : Type} (i : Z) (xs : list A) : nat :=
  let len := Z.of_nat (length xs) in
  if i <? 0 then Z.to_nat (Z.max 0 (len + i)) else Z.to_nat (Z.min i len).

Definition slice_to {A : Type} (i : Z) (xs : list A) : list A :=
  firstn (slice_index i xs) xs.

Definition slice_from {A : Type} (i : Z) (xs : list A) : list A :=
  skipn (slice_index i xs) xs.

(** Lines 116-120: the horizon after the shrink, and the two windows
    (train, test). *)
Definition effective_days {A : Type} (df_feat : list A) (days : Z) : Z :=
  if Z.of_nat (length df_feat) <=? days
  then Z.max 7 (Z.of_nat (length df_feat) / 3)
  else days.

Definition split_windows {A : Type} (df_feat : list A) (days : Z)
  : list A * list A :=
  let days := effective_days df_feat days in
  (slice_to (- days) df_feat, slice_from (- days) df_feat).

(** ** Accuracy (forecast, "metrics") *)

Definition eps : Q := 1 # 100000.

(** The element-wise [(y - f) / (y + 1e-5)] is not finite when a
    denominator is zero (numpy yields inf or nan and goes on). *)
Definition finite_ratios (actual : list Q) : bool :=
  forallb (fun a => negb (Qeq_bool (a + eps) 0)) actual.

Definition abs_ratio (af : Q * Q) : Q :=
  Qabs ((fst af - snd af) / (fst af + eps)).

(** [mape], when it is a finite number: [None] stands for inf or nan
    (a zero denominator, or the mean of an empty array). *)
Definition mape (actual forecast_vals : list Q) : option Q :=
  match actual with
  | [] => None
  | _ =>
      if finite_ratios actual
      then Some (mean (map abs_ratio (combine actual forecast_vals)) * 100)%Q
      else None
  end.

(** [max(0.0, 100.0 - mape)]: Python's [max] keeps its first argument
    unless the second is greater, so inf and nan give 0.0. *)
Definition accuracy_of (m : option Q) : Q :=
  match m with
  | Some m => if Qlt_le_dec 0 (100 - m) then (100 - m)%Q else 0%Q
  | None => 0%Q
  end.

(** Rounding to the nearest integer, ties to even. *)
Definition round_half_even (x : Q) : Z :=
  let f := Qfloor x in
  match (x - inject_Z f ?= 1 # 2)%Q with
  | Lt => f
  | Gt => f + 1
  | Eq => if Z.even f then f else f + 1
  end.

(** [round(x, 2)]. *)
Definition round2 (x : Q) : Q := inject_Z (round_half_even (x * 100)) / 100.

(** ** The forecast operation *)

Record ForecastResponse : Type := mkResponse {
  dates : list string;
  actual : list Q;
  predicted : list Q;
  accuracy : Q
}.

(** How a call of [forecast] ends: it returns a bundle, raises the
    [HTTPException] of line 96, or lets a library [ValueError] escape. *)
Inductive Outcome : Type :=
| Returned (b : ForecastResponse)
| HTTPException (status : Z) (detail : string)
| ValueError (msg : string).

Definition empty_response : ForecastResponse :=
  {| dates := []; actual := []; predicted := []; accuracy := 0%Q |}.

Definition no_samples : string :=
  "Found array with 0 sample(s) (shape=(0, 12)) while a minimum of 1 is required by RandomForestRegressor.".

Section Pipeline.

(** Library code taken as given: the float square root, and the forest
    with its training and its per-row prediction. *)
Variable sqrt : Q -> Q.
Variable Model : Type.
Variable rf_train : list (list (option Q)) -> list Q -> Model.
Variable rf_predict : Model -> list (option Q) -> Q.

(** The sample standard deviation ([ddof=1]) of [rolling(...).std()]. *)
Definition std (xs : list Q) : Q :=
  let m := mean xs in
  sqrt (sumQ (map (fun x => (x - m) * (x - m)) xs)
        / inject_Z (Z.of_nat (length xs) - 1))%Q.

(** The frame of [prepare_features] before [dropna()]. *)
Definition add_features (df : list (Z * Q)) : list Row :=
  let date := map fst df in
  let demand := map snd df in
  let lag1 := shift 1 demand in
  let lag7 := shift 7 demand in
  let lag90 := shift 90 demand in
  let rollmean7 := rolling 7 mean demand in
  let rollmean14 := rolling 14 mean demand in
  let rollstd7 := rolling 7 std demand in
  let ema7 := ewm_mean 7 demand in
  let ema30 := ewm_mean 30 demand in
  let timeindex := arange (length df) in
  map (fun i =>
         let d := nth i date 0 in
         {| Date := d;
            Demand := nth i demand 0%Q;
            DayOfWeek := dayofweek d;
            Month := month d;
            Lag1 := nth i lag1 None;
            Lag7 := nth i lag7 None;
            Lag90 := nth i lag90 None;
            RollMean7 := nth i rollmean7 None;
            RollMean14 := nth i rollmean14 None;
            RollStd7 := nth i rollstd7 None;
            EMA7 := nth i ema7 0%Q;
            EMA30 := nth i ema30 0%Q;
            TimeIndex := nth i timeindex 0;
            IsWeekend := is_weekend (dayofweek d) |})
      (seq 0 (length df)).

(** [prepare_features]: [dropna()] keeps the fully defined rows;
    [reset_index(drop=True)] renumbers the row labels, which are the
    list positions here, and leaves every column as it is. *)
Definition prepare_features (df : list (Z * Q)) : list Row :=
  filter row_defined (add_features df).

(** [df[features]] on one row: the twelve model inputs, in order. *)
Definition feature_vector (r : Row) : list (option Q) :=
  [ Some (inject_Z (DayOfWeek r)); Some (inject_Z (Month r));
    Lag1 r; Lag7 r; Lag90 r;
    RollMean7 r; RollMean14 r; RollStd7 r;
    Some (EMA7 r); Some (EMA30 r);
    Some (inject_Z (TimeIndex r)); Some (inject_Z (IsWeekend r)) ].

(** [model.fit(X, y)]: scikit-learn validates its input first and
    raises [ValueError] on an array without rows. *)
Definition model_fit (X : list (list (option Q))) (y : list Q)
  : string + Model :=
  match X with
  | [] => inl no_samples
  | _ => inr (rf_train X y)
  end.

(** [model.predict(X)]: the same validation, then one value per row. *)
Definition model_predict (m : Model) (X : list (list (option Q)))
  : string + list Q :=
  match X with
  | [] => inl no_samples
  | _ => inr (map (rf_predict m) X)
  end.

Definition forecast (res : QueryResult) (days : Z) : Outcome :=
  match load_sales_from_supabase res with
  | inl e => HTTPException 500 e
  | inr raw =>
      if match raw with [] => true | _ => false end
         || Qeq_bool (sumQ (map snd raw)) 0
      then Returned empty_response
      else
        let df := reconstruct raw in
        let df_feat := prepare_features df in
        let (train, test) := split_windows df_feat days in
        let X_train := map feature_vector train in
        let y_train := map Demand train in
        let X_test := map feature_vector test in
        let y_test := map Demand test in
        match model_fit X_train y_train with
        | inl e => ValueError e
        | inr model =>
            match model_predict model X_test with
            | inl e => ValueError e
            | inr forecast_vals =>
                let acc := accuracy_of (mape y_test forecast_vals) in
                Returned {| dates := map strftime (map Date test);
                            actual := y_test;
                            predicted := forecast_vals;
                            accuracy := round2 acc |}
            end
        end
  end.

End Pipeline.

(** ** Concrete instances, for running the pipeline *)

(** A rational square root to six decimals (exact on 0). *)
Definition Qsqrt (x : Q) : Q :=
  Z.sqrt (Qnum x * Zpos (Qden x) * 10 ^ 12) # (Qden x * 1000000).

(** A stand-in for the forest: it predicts the mean training demand. *)
Definition mean_train (X : list (list (option Q))) (y : list Q) : Q :=
  Qred (mean y).
Definition mean_predict (m : Q) (x : list (option Q)) : Q := m.

(** [n] days from [d0] on, each with demand [q]. *)
Definition const_series (n : nat) (d0 : Z) (q : Q) : list (Z * Q) :=
  map (fun k => (d0 + Z.of_nat k, q)) (seq 0 n).

(** * Properties *)

(** ** Lists and columns *)

Lemma nth_map_seq {A : Type} (f : nat -> A) (n i : nat) (d : A) :
  (i < n)%nat -> nth i (map f (seq 0 n)) d = f i.
Proof.
  intros Hi.
  rewrite (nth_indep _ d (f 0%nat)) by (rewrite length_map, length_seq; exact Hi).
  rewrite map_nth, seq_nth by exact Hi. reflexivity.
Qed.

Lemma filter_seq_ge (k start len : nat) :
  filter (fun i => (k <=? i)%nat) (seq start len)
  = seq (Nat.max k start) (len - (k - start)).
Proof.
  revert start. induction len as [|len IH]; intros start.
  - reflexivity.
  - cbn [seq filter]. rewrite IH.
    destruct (Nat.leb_spec k start) as [Hle|Hlt].
    + replace (Nat.max k (S start)) with (S start) by lia.
      replace (Nat.max k start) with start by lia.
      replace (S len - (k - start))%nat with (S (len - (k - S start))) by lia.
      reflexivity.
    + replace (Nat.max k (S start)) with k by lia.
      replace (Nat.max k start) with k by lia.
      f_equal. lia.
Qed.

Lemma shift_length (k : nat) (xs : list Q) : length (shift k xs) = length xs.
Proof.
  unfold shift. rewrite length_firstn, length_app, repeat_length, length_map. lia.
Qed.

(** Row [i] of [shift k] is NaN for [i < k] and the value [k] rows up
    otherwise. *)
Lemma shift_nth (k : nat) (xs : list Q) (i : nat) :
  (i < length xs)%nat ->
  nth i (shift k xs) None
  = if (i <? k)%nat then None else Some (nth (i - k) xs 0%Q).
Proof.
  intros Hi. unfold shift. rewrite nth_firstn.
  destruct (Nat.ltb_spec i (length xs)) as [_|Hge]; [|lia].
  destruct (Nat.ltb_spec i k) as [Hlt|Hge].
  - rewrite app_nth1 by (rewrite repeat_length; exact Hlt).
    apply nth_repeat.
  - rewrite app_nth2 by (rewrite repeat_length; exact Hge).
    rewrite repeat_length.
    rewrite (nth_indep _ None (Some 0%Q)) by (rewrite length_map; lia).
    apply map_nth.
Qed.

Lemma rolling_nth (w : nat) (stat : list Q -> Q) (xs : list Q) (i : nat) :
  (i < length xs)%nat ->
  nth i (rolling w stat xs) None
  = if (i + 1 <? w)%nat then None
    else Some (stat (firstn w (skipn (i + 1 - w) xs))).
Proof.
  intros Hi. unfold rolling. rewrite nth_map_seq by exact Hi. reflexivity.
Qed.

Lemma arange_nth (n i : nat) :
  (i < n)%nat -> nth i (arange n) 0 = Z.of_nat i.
Proof.
  intros Hi. unfold arange.
  change 0 with (Z.of_nat 0). rewrite map_nth, seq_nth by exact Hi. reflexivity.
Qed.

Lemma sumQ_from (xs : list Q) (a : Q) :
  (fold_left Qplus xs a == a + sumQ xs)%Q.
Proof.
  unfold sumQ. revert a.
  induction xs as [|x xs IH]; intros a; simpl.
  - ring.
  - rewrite IH, (IH (0 + x)%Q). ring.
Qed.

Lemma sumQ_cons (x : Q) (xs : list Q) : (sumQ (x :: xs) == x + sumQ xs)%Q.
Proof.
  unfold sumQ at 1. simpl. rewrite sumQ_from. ring.
Qed.

Lemma sumQ_nonneg (xs : list Q) :
  Forall (fun x => 0 <= x)%Q xs -> (0 <= sumQ xs)%Q.
Proof.
  induction 1 as [|x xs Hx _ IH].
  - unfold sumQ. simpl. apply Qle_refl.
  - rewrite sumQ_cons.
    apply (Qle_trans _ (0 + 0)); [apply Qle_refl|].
    apply Qplus_le_compat; assumption.
Qed.

(** ** The feature frame *)

Section FeatureProps.

Variable sqrt : Q -> Q.

Lemma add_features_length (df : list (Z * Q)) :
  length (add_features sqrt df) = length df.
Proof.
  unfold add_features. rewrite length_map, length_seq. reflexivity.
Qed.

(** Row [i] of the frame before [dropna()], column by column. *)
Lemma add_features_nth (df : list (Z * Q)) (i : nat) :
  (i < length df)%nat ->
  exists r,
    nth_error (add_features sqrt df) i = Some r /\
    nth_error df i = Some (Date r, Demand r) /\
    Lag1 r = (if (i <? 1)%nat then None
              else Some (nth (i - 1) (map snd df) 0%Q)) /\
    Lag7 r = (if (i <? 7)%nat then None
              else Some (nth (i - 7) (map snd df) 0%Q)) /\
    Lag90 r = (if (i <? 90)%nat then None
               else Some (nth (i - 90) (map snd df) 0%Q)) /\
    TimeIndex r = Z.of_nat i /\
    row_defined r = (90 <=? i)%nat.
Proof.
  intros Hi.
  assert (Hd : (i < length (map snd df))%nat) by (rewrite length_map; exact Hi).
  unfold add_features.
  rewrite nth_error_map, nth_error_seq.
  destruct (Nat.ltb_spec i (length df)) as [_|Hge]; [|lia].
  cbn [option_map Nat.add]. eexists. split; [reflexivity|].
  unfold row_defined. cbn [Date Demand Lag1 Lag7 Lag90 RollMean7 RollMean14
                           RollStd7 TimeIndex].
  rewrite !shift_nth, !rolling_nth, arange_nth by assumption.
  repeat split.
  - rewrite (nth_error_nth' df (0, 0%Q)) by exact Hi.
    pose proof (map_nth fst df (0, 0%Q) i) as Hf.
    pose proof (map_nth snd df (0, 0%Q) i) as Hs.
    cbn [fst snd] in Hf, Hs. rewrite Hf, Hs.
    destruct (nth i df (0, 0%Q)); reflexivity.
  - destruct (Nat.ltb_spec i 1), (Nat.ltb_spec i 7), (Nat.ltb_spec i 90),
      (Nat.ltb_spec (i + 1) 7), (Nat.ltb_spec (i + 1) 14),
      (Nat.leb_spec 90 i); cbn [is_some andb]; try reflexivity; lia.
Qed.

(** [dropna()] drops exactly the first 90 rows: the lag-90 column is the
    last one to become defined. *)
Lemma prepare_features_skipn (df : list (Z * Q)) :
  prepare_features sqrt df = skipn 90 (add_features sqrt df).
Proof.
  assert (Hrows : forall i, (i < length df)%nat ->
            option_map row_defined (nth_error (add_features sqrt df) i)
            = Some (90 <=? i)%nat).
  { intros i Hi. destruct (add_features_nth df i Hi) as (r & Hr & _ & _ & _ & _ & _ & Hdef).
    rewrite Hr. cbn. f_equal. exact Hdef. }
  unfold prepare_features. revert Hrows. unfold add_features.
  set (row := fun i : nat => _). intros Hrows.
  rewrite filter_map_swap.
  rewrite (filter_ext_in _ (fun i => (90 <=? i)%nat)).
  - rewrite filter_seq_ge, skipn_map, skipn_seq.
    f_equal.
  - intros i Hin. apply in_seq in Hin.
    specialize (Hrows i ltac:(lia)).
    rewrite nth_error_map, nth_error_seq in Hrows.
    destruct (Nat.ltb_spec i (length df)) as [_|Hge]; [|lia].
    cbn [option_map Nat.add] in Hrows. injection Hrows as Hrows. exact Hrows.
Qed.

Lemma prepare_features_length (df : list (Z * Q)) :
  length (prepare_features sqrt df) = (length df - 90)%nat.
Proof.
  rewrite prepare_features_skipn, length_skipn, add_features_length.
  reflexivity.
Qed.

(** Row [j] of the feature table is row [j + 90] of the series. *)
Lemma prepare_features_nth (df : list (Z * Q)) (j : nat) (r : Row) :
  nth_error (prepare_features sqrt df) j = Some r ->
  (j + 90 < length df)%nat /\
  nth_error (add_features sqrt df) (j + 90) = Some r.
Proof.
  rewrite prepare_features_skipn, nth_error_skipn.
  intros Hr. replace (j + 90)%nat with (90 + j)%nat by lia.
  split; [|exact Hr].
  rewrite <- add_features_length.
  apply nth_error_Some. congruence.
Qed.

Lemma add_features_dates (df : list (Z * Q)) :
  map Date (add_features sqrt df) = map fst df.
Proof.
  apply nth_ext with (d := 0) (d' := 0).
  - rewrite !length_map. apply add_features_length.
  - intros i Hi. rewrite length_map, add_features_length in Hi.
    destruct (add_features_nth df i Hi) as (r & Hr & Hrow & _).
    rewrite (nth_error_nth' df (0, 0%Q)) in Hrow by exact Hi.
    assert (Hm : nth_error (map Date (add_features sqrt df)) i = Some (Date r))
      by (rewrite nth_error_map, Hr; reflexivity).
    rewrite (nth_error_nth _ _ 0 Hm).
    pose proof (map_nth fst df (0, 0%Q) i) as Hf.
    cbn [fst] in Hf. rewrite Hf.
    injection Hrow as Hrow. rewrite Hrow. reflexivity.
Qed.

End FeatureProps.

(** ** Claims on the feature table *)

Section FeatureClaims.

Variable sqrt : Q -> Q.

(** C5 (as amended): the time index is assigned before [dropna()], so a
    retained row keeps its position in the reconstructed series: row
    [j] of the feature table has time index [j + 90].  The index grows
    by one from row to row and starts at 90, not at 0. *)
Theorem time_index_is_series_position
    (df : list (Z * Q)) (j : nat) (r : Row) :
  nth_error (prepare_features sqrt df) j = Some r ->
  TimeIndex r = Z.of_nat j + 90 /\
  nth_error df (Z.to_nat (TimeIndex r)) = Some (Date r, Demand r).
Proof.
  intros Hr. apply prepare_features_nth in Hr. destruct Hr as [Hlen Hr].
  destruct (add_features_nth sqrt df (j + 90) Hlen)
    as (r' & Hr' & Hrow & _ & _ & _ & Hti & _).
  rewrite Hr in Hr'. injection Hr' as <-.
  rewrite Hti, Nat2Z.id. split; [lia | exact Hrow].
Qed.

(** C6 (as amended): [dropna()] removes exactly the first 90 rows, those
    without a lag-90 value, so the table has [length df - 90] rows, and
    every retained row has all features defined.  A 120-day series
    leaves 30 rows. *)
Theorem prepare_features_drops_90 (df : list (Z * Q)) :
  prepare_features sqrt df = skipn 90 (add_features sqrt df) /\
  length (prepare_features sqrt df) = (length df - 90)%nat /\
  (forall r, In r (firstn 90 (add_features sqrt df)) -> Lag90 r = None) /\
  (forall r, In r (prepare_features sqrt df) ->
     exists l1 l7 l90 m7 m14 s7,
       Lag1 r = Some l1 /\ Lag7 r = Some l7 /\ Lag90 r = Some l90 /\
       RollMean7 r = Some m7 /\ RollMean14 r = Some m14 /\
       RollStd7 r = Some s7) /\
  (forall d0 q,
     length (prepare_features sqrt (const_series 120 d0 q)) = 30%nat).
Proof.
  split; [apply prepare_features_skipn|].
  split; [apply prepare_features_length|].
  split; [|split].
  - intros r Hin. apply In_nth_error in Hin. destruct Hin as [i Hi].
    rewrite nth_error_firstn in Hi.
    destruct (Nat.ltb_spec i 90) as [Hlt|]; [|discriminate].
    assert (Hlen : (i < length df)%nat).
    { rewrite <- (add_features_length sqrt). apply nth_error_Some. congruence. }
    destruct (add_features_nth sqrt df i Hlen)
      as (r' & Hr' & _ & _ & _ & H90 & _).
    rewrite Hi in Hr'. injection Hr' as <-.
    rewrite H90. destruct (Nat.ltb_spec i 90); [reflexivity | lia].
  - intros r Hin. unfold prepare_features in Hin.
    apply filter_In in Hin. destruct Hin as [_ Hdef].
    unfold row_defined in Hdef.
    destruct (Lag1 r) as [l1|], (Lag7 r) as [l7|], (Lag90 r) as [l90|],
      (RollMean7 r) as [m7|], (RollMean14 r) as [m14|],
      (RollStd7 r) as [s7|]; try discriminate Hdef.
    exists l1, l7, l90, m7, m14, s7. repeat split.
  - intros d0 q. rewrite prepare_features_length.
    unfold const_series. rewrite length_map, length_seq. reflexivity.
Qed.

(** C7: a retained row sits at position [i = j + 90] of the
    reconstructed series, and its lag columns hold the demand of
    positions [i - 1], [i - 7] and [i - 90] of that series. *)
Theorem lag_features_are_past_demand
    (df : list (Z * Q)) (j : nat) (r : Row) :
  nth_error (prepare_features sqrt df) j = Some r ->
  let i := (j + 90)%nat in
  let demand := map snd df in
  nth_error df i = Some (Date r, Demand r) /\
  Lag1 r = nth_error demand (i - 1) /\
  Lag7 r = nth_error demand (i - 7) /\
  Lag90 r = nth_error demand (i - 90) /\
  Lag1 r <> None /\ Lag7 r <> None /\ Lag90 r <> None.
Proof.
  intros Hr i demand. apply prepare_features_nth in Hr.
  destruct Hr as [Hlen Hr]. fold i in Hlen, Hr.
  destruct (add_features_nth sqrt df i Hlen)
    as (r' & Hr' & Hrow & H1 & H7 & H90 & _).
  rewrite Hr in Hr'. injection Hr' as <-. fold demand in H1, H7, H90.
  assert (Hi : (90 <= i)%nat) by (unfold i; lia).
  assert (Hd : length demand = length df) by apply length_map.
  destruct (Nat.ltb_spec i 1); [lia|].
  destruct (Nat.ltb_spec i 7); [lia|].
  destruct (Nat.ltb_spec i 90); [lia|].
  rewrite H1, H7, H90.
  rewrite !(nth_error_nth' demand 0%Q) by lia.
  repeat split; try reflexivity; try discriminate. exact Hrow.
Qed.

End FeatureClaims.

(** ** Aggregation and reconstruction *)

Lemma add_obs_sum (d : Z) (q : Q) (t : list (Z * Q)) :
  (sumQ (map snd (add_obs d q t)) == sumQ (map snd t) + q)%Q.
Proof.
  induction t as [|[d' q'] t IH]; cbn [add_obs].
  - cbn [map snd]. rewrite sumQ_cons. unfold sumQ. cbn. ring.
  - destruct (d <? d'); [|destruct (d =? d')]; cbn [map snd fst].
    + rewrite !sumQ_cons. cbn [snd]. ring.
    + rewrite !sumQ_cons. ring.
    + rewrite !sumQ_cons, IH. ring.
Qed.

Lemma groupby_from_sum (rows t : list (Z * Q)) :
  (sumQ (map snd (fold_left (fun t r => add_obs (fst r) (snd r) t) rows t))
   == sumQ (map snd t) + sumQ (map snd rows))%Q.
Proof.
  revert t. induction rows as [|r rows IH]; intros t; cbn [fold_left map].
  - unfold sumQ at 3. cbn. ring.
  - rewrite IH, add_obs_sum, sumQ_cons. ring.
Qed.

(** Grouping keeps the total quantity. *)
Lemma groupby_sum_total (rows : list (Z * Q)) :
  (sumQ (map snd (groupby_sum rows)) == sumQ (map snd rows))%Q.
Proof.
  unfold groupby_sum. rewrite groupby_from_sum. unfold sumQ at 1. cbn. ring.
Qed.

Lemma add_obs_dates (d : Z) (q : Q) (t : list (Z * Q)) (x : Z) :
  In x (map fst (add_obs d q t)) <-> x = d \/ In x (map fst t).
Proof.
  induction t as [|[d' q'] t IH]; cbn [add_obs].
  - cbn. intuition.
  - destruct (d <? d'); [|destruct (Z.eqb_spec d d')]; cbn [map fst In].
    + intuition.
    + subst. intuition.
    + rewrite IH. intuition.
Qed.

Lemma groupby_from_dates (rows t : list (Z * Q)) (x : Z) :
  In x (map fst (fold_left (fun t r => add_obs (fst r) (snd r) t) rows t))
  <-> In x (map fst t) \/ In x (map fst rows).
Proof.
  revert t. induction rows as [|r rows IH]; intros t; cbn [fold_left map In].
  - intuition.
  - rewrite IH, add_obs_dates. intuition.
Qed.

(** Grouping keeps the set of observed dates. *)
Lemma groupby_sum_dates (rows : list (Z * Q)) (x : Z) :
  In x (map fst (groupby_sum rows)) <-> In x (map fst rows).
Proof.
  unfold groupby_sum. rewrite groupby_from_dates. cbn. intuition.
Qed.

Lemma groupby_sum_nil (rows : list (Z * Q)) :
  groupby_sum rows = [] -> rows = [].
Proof.
  intros Hnil. destruct rows as [|r rows]; [reflexivity|].
  assert (Hin : In (fst r) (map fst (groupby_sum (r :: rows))))
    by (apply groupby_sum_dates; left; reflexivity).
  rewrite Hnil in Hin. destruct Hin.
Qed.

Lemma fold_min_spec (l : list Z) (a : Z) :
  fold_left Z.min l a <= a /\
  (forall x, In x l -> fold_left Z.min l a <= x) /\
  (fold_left Z.min l a = a \/ In (fold_left Z.min l a) l).
Proof.
  revert a. induction l as [|y l IH]; intros a; cbn [fold_left In].
  - repeat split; [lia | intros x [] | left; reflexivity].
  - destruct (IH (Z.min a y)) as (Hle & Hall & Hin). repeat split.
    + lia.
    + intros x [<-|Hx]; [lia | apply Hall, Hx].
    + destruct Hin as [Heq|Hin]; [|right; right; exact Hin].
      rewrite Heq. destruct (Z.min_spec a y) as [[_ ->]|[_ ->]]; auto.
Qed.

Lemma fold_max_spec (l : list Z) (a : Z) :
  a <= fold_left Z.max l a /\
  (forall x, In x l -> x <= fold_left Z.max l a) /\
  (fold_left Z.max l a = a \/ In (fold_left Z.max l a) l).
Proof.
  revert a. induction l as [|y l IH]; intros a; cbn [fold_left In].
  - repeat split; [lia | intros x [] | left; reflexivity].
  - destruct (IH (Z.max a y)) as (Hle & Hall & Hin). repeat split.
    + lia.
    + intros x [<-|Hx]; [lia | apply Hall, Hx].
    + destruct Hin as [Heq|Hin]; [|right; right; exact Hin].
      rewrite Heq. destruct (Z.max_spec a y) as [[_ ->]|[_ ->]]; auto.
Qed.

Lemma lookup_date_absent (d : Z) (raw : list (Z * Q)) :
  ~ In d (map fst raw) -> lookup_date d raw = None.
Proof.
  induction raw as [|[d' q] raw IH]; cbn [lookup_date map fst In]; intros Hn.
  - reflexivity.
  - destruct (Z.eqb_spec d d') as [->|_]; [exfalso; auto | apply IH; auto].
Qed.

Lemma date_range_length (a b : Z) :
  length (date_range a b) = Z.to_nat (b - a + 1).
Proof.
  unfold date_range. rewrite length_map, length_seq. reflexivity.
Qed.

Lemma date_range_nth (a b : Z) (i : nat) :
  (i < length (date_range a b))%nat ->
  nth i (date_range a b) 0 = a + Z.of_nat i.
Proof.
  rewrite date_range_length. intros Hi. unfold date_range.
  rewrite nth_map_seq by exact Hi. reflexivity.
Qed.

Lemma date_range_In (a b d : Z) : In d (date_range a b) <-> a <= d <= b.
Proof.
  unfold date_range. rewrite in_map_iff. split.
  - intros (k & <- & Hk). apply in_seq in Hk. lia.
  - intros Hd. exists (Z.to_nat (d - a)). split; [lia|].
    apply in_seq. lia.
Qed.

Lemma seq_offset (k s len : nat) :
  seq (s + k) len = map (fun j => (j + k)%nat) (seq s len).
Proof.
  revert s. induction len as [|len IH]; intros s; cbn [seq map].
  - reflexivity.
  - f_equal. apply (IH (S s)).
Qed.

(** A suffix of a date range is a date range. *)
Lemma date_range_skipn (a b : Z) (k : nat) :
  skipn k (date_range a b) = date_range (a + Z.of_nat k) b.
Proof.
  unfold date_range. rewrite skipn_map, skipn_seq.
  replace (Z.to_nat (b - (a + Z.of_nat k) + 1))
    with (Z.to_nat (b - a + 1) - k)%nat by lia.
  rewrite seq_offset, map_map.
  apply map_ext. intros j. lia.
Qed.

Lemma reconstruct_dates (raw : list (Z * Q)) (d0 : Z) (q0 : Q)
    (raw' : list (Z * Q)) :
  raw = (d0, q0) :: raw' ->
  map fst (reconstruct raw) = date_range (date_min d0 raw) (date_max d0 raw).
Proof.
  intros ->. unfold reconstruct. rewrite map_map. cbn [fst]. apply map_id.
Qed.

(** C2: for a non-empty observation set the reconstructed series runs
    over every day from the earliest to the latest observed date [lo],
    [hi]: its dates are [lo, lo + 1, ..., hi] in this order, its length is
    [hi - lo + 1], and a day without an observation carries demand 0. *)
Theorem reconstruct_daily_series
    (rows raw : list (Z * Q)) :
  rows <> [] ->
  load_sales_from_supabase (QueryData rows) = inr raw ->
  exists lo hi,
    In lo (map fst rows) /\ In hi (map fst rows) /\
    (forall d, In d (map fst rows) -> lo <= d <= hi) /\
    map fst (reconstruct raw) = date_range lo hi /\
    length (reconstruct raw) = Z.to_nat (hi - lo + 1) /\
    (forall i, (i < length (reconstruct raw))%nat ->
       nth i (map fst (reconstruct raw)) 0 = lo + Z.of_nat i) /\
    (forall d, lo <= d <= hi -> In d (map fst (reconstruct raw))) /\
    (forall d q, In (d, q) (reconstruct raw) ->
       ~ In d (map fst rows) -> q = 0%Q).
Proof.
  intros Hne Hload.
  assert (Hraw : raw = groupby_sum rows).
  { destruct rows as [|r rows]; [contradiction|].
    unfold load_sales_from_supabase in Hload. injection Hload as <-.
    reflexivity. }
  assert (Hdates := groupby_sum_dates rows). rewrite <- Hraw in Hdates.
  destruct raw as [|[d0 q0] raw'] eqn:Eraw.
  { symmetry in Hraw. apply groupby_sum_nil in Hraw. contradiction. }
  rewrite <- Eraw in *.
  assert (Hd0 : In d0 (map fst raw)) by (rewrite Eraw; left; reflexivity).
  destruct (fold_min_spec (map fst raw) d0) as (Hlo0 & Hlo & Hlo_in).
  destruct (fold_max_spec (map fst raw) d0) as (Hhi0 & Hhi & Hhi_in).
  fold (date_min d0 raw) in Hlo0, Hlo, Hlo_in.
  fold (date_max d0 raw) in Hhi0, Hhi, Hhi_in.
  pose proof (reconstruct_dates raw d0 q0 raw' Eraw) as Hgrid.
  set (lo := date_min d0 raw) in *. set (hi := date_max d0 raw) in *.
  assert (Hlen : length (reconstruct raw) = Z.to_nat (hi - lo + 1)).
  { rewrite <- (length_map fst), Hgrid. apply date_range_length. }
  exists lo, hi. repeat split.
  - apply Hdates. destruct Hlo_in as [->|Hin]; assumption.
  - apply Hdates. destruct Hhi_in as [->|Hin]; assumption.
  - apply Hlo, Hdates, H.
  - apply Hhi, Hdates, H.
  - exact Hgrid.
  - exact Hlen.
  - intros i Hi. rewrite Hgrid. apply date_range_nth.
    rewrite date_range_length, <- Hlen. exact Hi.
  - intros d Hd. rewrite Hgrid. apply date_range_In. exact Hd.
  - intros d q Hin Habs.
    rewrite Eraw in Hin. unfold reconstruct in Hin. rewrite <- Eraw in Hin.
    apply in_map_iff in Hin. destruct Hin as (d' & Heq & _).
    injection Heq as -> <-.
    rewrite lookup_date_absent; [reflexivity|].
    intros Hin. apply Habs, Hdates, Hin.
Qed.

(** ** Windows *)

Lemma split_windows_app {A : Type} (df_feat : list A) (days : Z) :
  fst (split_windows df_feat days) ++ snd (split_windows df_feat days)
  = df_feat.
Proof.
  unfold split_windows, slice_to, slice_from. cbn [fst snd].
  apply firstn_skipn.
Qed.

(** With a horizon of at least 1 the slice index is [L - days], cut off
    at 0. *)
Lemma slice_index_neg {A : Type} (xs : list A) (days : Z) :
  1 <= days ->
  slice_index (- days) xs = (length xs - Z.to_nat days)%nat.
Proof.
  intros Hd. unfold slice_index.
  destruct (Z.ltb_spec (- days) 0); lia.
Qed.

(** C1 (as amended): when the table has [L <= D] rows the horizon becomes
    [E = max(7, L / 3) >= 7]; the test window is the last [min(L, E)]
    rows and the training window the rows before it.  For [L >= 7] these
    are [E] and [L - E] rows; for [L < 7] the test window is the whole
    table and the training window is empty. *)
Theorem horizon_shrink_windows
    {A : Type} (df_feat : list A) (D : Z) :
  let L := Z.of_nat (length df_feat) in
  let E := Z.max 7 (L / 3) in
  let train := fst (split_windows df_feat D) in
  let test := snd (split_windows df_feat D) in
  L <= D ->
  effective_days df_feat D = E /\ 7 <= E /\
  train ++ test = df_feat /\
  Z.of_nat (length test) = Z.min L E /\
  Z.of_nat (length train) = L - Z.min L E /\
  (7 <= L -> Z.of_nat (length test) = E /\ Z.of_nat (length train) = L - E) /\
  (L < 7 -> test = df_feat /\ train = []).
Proof.
  intros L E train test HLD.
  assert (HE : effective_days df_feat D = E).
  { unfold effective_days. fold L.
    destruct (Z.leb_spec L D); [reflexivity | lia]. }
  assert (HE7 : 7 <= E) by (unfold E; lia).
  assert (HL0 : 0 <= L) by (unfold L; lia).
  assert (HL3 : L / 3 <= L) by (apply Z.div_le_upper_bound; lia).
  assert (Hidx : slice_index (- E) df_feat = (length df_feat - Z.to_nat E)%nat)
    by (apply slice_index_neg; lia).
  assert (Htest : length test = (length df_feat - (length df_feat - Z.to_nat E))%nat).
  { unfold test, split_windows, slice_from. cbn [snd].
    rewrite HE, Hidx. apply length_skipn. }
  assert (Htrain : length train = (length df_feat - Z.to_nat E)%nat).
  { unfold train, split_windows, slice_to. cbn [fst].
    rewrite HE, Hidx, length_firstn. lia. }
  split; [exact HE|]. split; [exact HE7|].
  split; [apply split_windows_app|].
  split; [unfold L in *; lia|]. split; [unfold L in *; lia|].
  split.
  - intros HL7. unfold L in *. lia.
  - intros HL7.
    assert (Hk : (length df_feat - Z.to_nat E = 0)%nat) by (unfold L in *; lia).
    unfold test, train, split_windows, slice_from, slice_to. cbn [fst snd].
    rewrite HE, Hidx, Hk. split; reflexivity.
Qed.

(** ** Accuracy *)

Lemma inject_Z_succ (f : Z) : (inject_Z (f + 1) == inject_Z f + 1)%Q.
Proof. rewrite inject_Z_plus. reflexivity. Qed.

(** The two outcomes of rounding, with the side each one needs. *)
Lemma round_half_even_cases (x : Q) :
  let f := Qfloor x in
  (round_half_even x = f /\
   (x - inject_Z f < 1 # 2 \/
    (x - inject_Z f == 1 # 2 /\ Z.even f = true))%Q) \/
  (round_half_even x = f + 1 /\
   (1 # 2 < x - inject_Z f \/
    (x - inject_Z f == 1 # 2 /\ Z.even f = false))%Q).
Proof.
  intros f. unfold round_half_even. fold f.
  destruct (Qcompare_spec (x - inject_Z f) (1 # 2)) as [Heq|Hlt|Hgt].
  - destruct (Z.even f) eqn:Ev; [left | right]; auto.
  - left. auto.
  - right. auto.
Qed.

Lemma round_half_even_between (a b : Z) (x : Q) :
  (inject_Z a <= x)%Q -> (x <= inject_Z b)%Q ->
  a <= round_half_even x <= b.
Proof.
  intros Ha Hb.
  assert (Hfa : a <= Qfloor x)
    by (rewrite <- (Qfloor_Z a); apply Qfloor_resp_le, Ha).
  assert (Hfb : Qfloor x <= b)
    by (rewrite <- (Qfloor_Z b); apply Qfloor_resp_le, Hb).
  destruct (round_half_even_cases x) as [[-> _]|[-> Hside]]; [lia|].
  split; [lia|].
  destruct (Z.eq_dec (Qfloor x) b) as [Heq|Hne]; [|lia].
  exfalso. rewrite Heq in Hside. destruct Hside as [H|[H _]]; lra.
Qed.

Lemma round_half_even_10000 (x : Q) :
  (x <= 10000)%Q ->
  round_half_even x = 10000 <-> (19999 # 2 <= x)%Q.
Proof.
  intros Hx.
  pose proof (Qfloor_le x) as Hfl. pose proof (Qlt_floor x) as Hfu.
  rewrite inject_Z_succ in Hfu.
  assert (Hf : Qfloor x <= 10000).
  { change 10000 with (Qfloor (inject_Z 10000)). apply Qfloor_resp_le, Hx. }
  split.
  - intros Hr.
    destruct (round_half_even_cases x) as [[Hc _]|[Hc Hside]];
      rewrite Hc in Hr.
    + rewrite Hr in Hfl. change (inject_Z 10000) with 10000%Q in Hfl. lra.
    + assert (Hq : Qfloor x = 9999) by lia. rewrite Hq in Hside.
      change (inject_Z 9999) with 9999%Q in Hside.
      destruct Hside as [H|[H _]]; lra.
  - intros Hlow.
    assert (Hf' : 9999 <= Qfloor x).
    { change 9999 with (Qfloor (inject_Z 9999)). apply Qfloor_resp_le.
      change (inject_Z 9999) with 9999%Q. lra. }
    destruct (Z.eq_dec (Qfloor x) 10000) as [Heq|Hne].
    + destruct (round_half_even_cases x) as [[Hc _]|[_ Hside]]; [lia|].
      exfalso. rewrite Heq in Hside.
      change (inject_Z 10000) with 10000%Q in Hside.
      destruct Hside as [H|[H _]]; lra.
    + assert (Hq : Qfloor x = 9999) by lia.
      destruct (round_half_even_cases x) as [[_ Hside]|[Hc _]]; [|lia].
      exfalso. rewrite Hq in Hside.
      change (inject_Z 9999) with 9999%Q in Hside.
      destruct Hside as [H|[_ H]]; [lra | discriminate H].
Qed.

Lemma round2_range (x : Q) :
  (0 <= x)%Q -> (x <= 100)%Q -> (0 <= round2 x /\ round2 x <= 100)%Q.
Proof.
  intros H0 H100.
  destruct (round_half_even_between 0 10000 (x * 100)) as [Hlo Hhi].
  - change (inject_Z 0) with 0%Q. lra.
  - change (inject_Z 10000) with 10000%Q. lra.
  - unfold round2. rewrite Zle_Qle in Hlo, Hhi.
    change (inject_Z 0) with 0%Q in Hlo.
    change (inject_Z 10000) with 10000%Q in Hhi.
    split.
    + apply Qle_shift_div_l; lra.
    + apply Qle_shift_div_r; lra.
Qed.

Lemma round2_100 (x : Q) :
  (x <= 100)%Q -> (round2 x == 100)%Q <-> (19999 # 200 <= x)%Q.
Proof.
  intros Hx.
  assert (Hr : (round2 x == 100)%Q <-> round_half_even (x * 100) = 10000).
  { unfold round2. split.
    - intros H. apply inject_Z_injective.
      change (inject_Z 10000) with 10000%Q.
      assert (Hm : (inject_Z (round_half_even (x * 100)) / 100 * 100
                    == inject_Z (round_half_even (x * 100)))%Q)
        by (field).
      rewrite <- Hm, H. reflexivity.
    - intros ->. reflexivity. }
  rewrite Hr, round_half_even_10000 by lra.
  split; intros H; lra.
Qed.

Lemma mean_nonneg (xs : list Q) :
  Forall (fun x => 0 <= x)%Q xs -> (0 <= mean xs)%Q.
Proof.
  intros Hxs. unfold mean, Qdiv. apply Qmult_le_0_compat.
  - apply sumQ_nonneg, Hxs.
  - apply Qinv_le_0_compat. rewrite <- (Zle_Qle 0). lia.
Qed.

Lemma mape_nonneg (actual forecast_vals : list Q) (m : Q) :
  mape actual forecast_vals = Some m -> (0 <= m)%Q.
Proof.
  unfold mape. destruct actual as [|a actual]; [discriminate|].
  destruct (finite_ratios (a :: actual)); [|discriminate].
  intros [= <-].
  assert (H : (0 <= mean (map abs_ratio (combine (a :: actual) forecast_vals)))%Q).
  { apply mean_nonneg, Forall_forall. intros x Hin.
    apply in_map_iff in Hin. destruct Hin as (af & <- & _).
    apply Qabs_nonneg. }
  apply Qmult_le_0_compat; [exact H | discriminate].
Qed.

Lemma accuracy_of_range (m : option Q) :
  (forall v, m = Some v -> 0 <= v)%Q ->
  (0 <= accuracy_of m /\ accuracy_of m <= 100)%Q.
Proof.
  intros Hm. unfold accuracy_of. destruct m as [v|]; [|split; lra].
  specialize (Hm v eq_refl).
  destruct (Qlt_le_dec 0 (100 - v)); split; lra.
Qed.

Lemma sumQ_zero (xs : list Q) :
  Forall (fun x => x == 0)%Q xs -> (sumQ xs == 0)%Q.
Proof.
  induction 1 as [|x xs Hx _ IH].
  - reflexivity.
  - rewrite sumQ_cons, Hx, IH. reflexivity.
Qed.

(** Predictions equal to the actuals give a zero error. *)
Lemma mape_exact (actual : list Q) :
  actual <> [] -> finite_ratios actual = true ->
  exists m, mape actual actual = Some m /\ (m == 0)%Q.
Proof.
  intros Hne Hfin. unfold mape. destruct actual as [|a actual]; [contradiction|].
  rewrite Hfin. eexists. split; [reflexivity|].
  assert (Hs : (sumQ (map abs_ratio (combine (a :: actual) (a :: actual))) == 0)%Q).
  { apply sumQ_zero, Forall_forall. intros x Hin.
    apply in_map_iff in Hin. destruct Hin as ([u v] & <- & Hin).
    assert (Huv : u = v).
    { clear - Hin. revert Hin. generalize (a :: actual) as l.
      induction l as [|y l IH]; cbn; [tauto|].
      intros [H|H]; [congruence | auto]. }
    subst v. unfold abs_ratio. cbn [fst snd].
    assert (Hz : ((u - u) / (u + eps) == 0)%Q) by (unfold Qdiv; ring).
    rewrite (Qabs_wd _ _ Hz). reflexivity. }
  unfold mean. rewrite Hs. unfold Qdiv. ring.
Qed.

(** C4 (as amended): for a non-empty test window the reported accuracy is
    [max(0, 100 - MAPE)] rounded to two decimals, MAPE being 100 times the
    mean of [|a - f| / (a + 1e-5)]; it lies in [0, 100]; predictions equal
    to the actuals give 100.0, but not only they: because of the
    rounding, every MAPE of at most 0.005 is reported as 100.0. *)
Theorem reported_accuracy_spec (actual forecast_vals : list Q) :
  actual <> [] ->
  let m := mape actual forecast_vals in
  let acc := round2 (accuracy_of m) in
  (finite_ratios actual = true ->
   m = Some (mean (map (fun af => Qabs ((fst af - snd af)
                                        / (fst af + (1 # 100000))))
                       (combine actual forecast_vals)) * 100)%Q) /\
  (forall v, m = Some v -> accuracy_of m == Qmax 0 (100 - v))%Q /\
  (0 <= acc /\ acc <= 100)%Q /\
  (forall v, m = Some v -> (v <= 1 # 200)%Q -> (acc == 100)%Q) /\
  (finite_ratios actual = true -> forecast_vals = actual -> (acc == 100)%Q).
Proof.
  intros Hne m acc.
  assert (Hnn : forall v, m = Some v -> (0 <= v)%Q)
    by (intros v Hv; apply (mape_nonneg actual forecast_vals v Hv)).
  destruct (accuracy_of_range m Hnn) as [Ha0 Ha100].
  assert (Hfull : forall v, m = Some v -> (v <= 1 # 200)%Q -> (acc == 100)%Q).
  { intros v Hv Hsmall. unfold acc. apply (round2_100 _ Ha100).
    specialize (Hnn v Hv). rewrite Hv. unfold accuracy_of.
    destruct (Qlt_le_dec 0 (100 - v)); lra. }
  split; [|split; [|split; [|split]]].
  - intros Hfin. unfold m, mape. destruct actual; [contradiction|].
    rewrite Hfin. reflexivity.
  - intros v Hv. rewrite Hv. unfold accuracy_of.
    destruct (Qlt_le_dec 0 (100 - v)) as [Hpos|Hneg].
    + symmetry. apply Q.max_r. lra.
    + symmetry. apply Q.max_l. exact Hneg.
  - apply round2_range; assumption.
  - exact Hfull.
  - intros Hfin ->.
    destruct (mape_exact actual Hne Hfin) as (v & Hv & Hz).
    apply (Hfull v Hv). lra.
Qed.

(** ** Reading back a formatted date *)

(** The month and the day of the month of any date are in range. *)
Lemma civil_from_days_range (z : Z) :
  1 <= snd (fst (civil_from_days z)) <= 12 /\
  1 <= snd (civil_from_days z) <= 31.
Proof.
  unfold civil_from_days. cbn zeta.
  set (doe := z + 719468 - (z + 719468) / 146097 * 146097).
  assert (Hdoe : 0 <= doe < 146097)
    by (unfold doe; Z.to_euclidean_division_equations; lia).
  clearbody doe.
  set (yoe := (doe - doe / 1460 + doe / 36524 - doe / 146096) / 365).
  set (doy := doe - (365 * yoe + yoe / 4 - yoe / 100)).
  assert (Hdoy : 0 <= doy <= 365)
    by (unfold doy, yoe; Z.to_euclidean_division_equations; lia).
  clearbody doy. clear Hdoe.
  set (mp := (5 * doy + 2) / 153).
  assert (Hmp : 0 <= mp <= 11)
    by (unfold mp; Z.to_euclidean_division_equations; lia).
  assert (Hd : 1 <= doy - (153 * mp + 2) / 5 + 1 <= 31)
    by (unfold mp; Z.to_euclidean_division_equations; lia).
  cbn [fst snd]. split; [|exact Hd].
  destruct (Z.ltb_spec mp 10); lia.
Qed.

Lemma days_from_civil_from_days (z : Z) :
  let '(y, m, d) := civil_from_days z in days_from_civil y m d = z.
Proof.
  unfold civil_from_days. cbn zeta.
  set (era := (z + 719468) / 146097).
  set (doe := z + 719468 - era * 146097).
  assert (Hdoe : 0 <= doe < 146097)
    by (unfold doe, era; Z.to_euclidean_division_equations; lia).
  assert (Hz : z = era * 146097 + doe - 719468) by (unfold doe; lia).
  clearbody doe era.
  set (yoe := (doe - doe / 1460 + doe / 36524 - doe / 146096) / 365).
  assert (Hyoe : 0 <= yoe <= 399)
    by (unfold yoe; Z.to_euclidean_division_equations; lia).
  set (doy := doe - (365 * yoe + yoe / 4 - yoe / 100)).
  assert (Hdoy : 0 <= doy <= 365)
    by (unfold doy, yoe; Z.to_euclidean_division_equations; lia).
  assert (Hdoe' : doe = yoe * 365 + yoe / 4 - yoe / 100 + doy)
    by (unfold doy; lia).
  clearbody doy. clearbody yoe.
  set (mp := (5 * doy + 2) / 153).
  assert (Hmp : 0 <= mp <= 11)
    by (unfold mp; Z.to_euclidean_division_equations; lia).
  unfold days_from_civil.
  destruct (Z.ltb_spec mp 10) as [Hlt|Hge].
  - destruct (Z.leb_spec (mp + 3) 2); [lia|].
    destruct (Z.ltb_spec 2 (mp + 3)); [|lia].
    replace (mp + 3 - 3) with mp by lia.
    replace ((yoe + era * 400) / 400) with era
      by (Z.to_euclidean_division_equations; lia).
    replace (yoe + era * 400 - era * 400) with yoe by lia.
    lia.
  - destruct (Z.leb_spec (mp - 9) 2); [|lia].
    destruct (Z.ltb_spec 2 (mp - 9)); [lia|].
    replace (mp - 9 + 9) with mp by lia.
    replace (yoe + era * 400 + 1 - 1) with (yoe + era * 400) by lia.
    replace ((yoe + era * 400) / 400) with era
      by (Z.to_euclidean_division_equations; lia).
    replace (yoe + era * 400 - era * 400) with yoe by lia.
    lia.
Qed.

(** The dates pandas can hold have four-digit years. *)
Lemma timestamp_year_range (z : Z) :
  Timestamp_min <= z <= Timestamp_max ->
  1000 <= fst (fst (civil_from_days z)) <= 9999.
Proof.
  unfold Timestamp_min, Timestamp_max, civil_from_days. cbn zeta.
  intros Hz.
  set (era := (z + 719468) / 146097).
  assert (Hera : 4 <= era <= 5)
    by (unfold era; Z.to_euclidean_division_equations; lia).
  set (doe := z + 719468 - era * 146097).
  assert (Hdoe : 0 <= doe < 146097)
    by (unfold doe, era; Z.to_euclidean_division_equations; lia).
  clearbody doe era.
  set (yoe := (doe - doe / 1460 + doe / 36524 - doe / 146096) / 365).
  assert (Hyoe : 0 <= yoe <= 399)
    by (unfold yoe; Z.to_euclidean_division_equations; lia).
  clearbody yoe. cbn [fst].
  match goal with |- _ <= (if ?c then _ else _) <= _ => destruct c end; lia.
Qed.

Lemma digit_value_digit (n : Z) : digit_value (digit n) = Some (n mod 10).
Proof.
  unfold digit_value, digit.
  pose proof (Z.mod_pos_bound n 10 ltac:(lia)) as Hb.
  rewrite nat_ascii_embedding by lia.
  rewrite Nat2Z.inj_add, Z2Nat.id by lia.
  change (Z.of_nat 48) with 48.
  destruct (Z.leb_spec 48 (48 + n mod 10)); [|lia].
  destruct (Z.leb_spec (48 + n mod 10) 57); [|lia].
  cbn [andb]. f_equal. lia.
Qed.

Lemma number2_pad (n : Z) :
  0 <= n <= 99 -> number2 (digit (n / 10)) (digit n) = Some n.
Proof.
  intros Hn. unfold number2. rewrite !digit_value_digit. f_equal.
  Z.to_euclidean_division_equations. lia.
Qed.

(** Formatting a date with a four-digit year and reading the string back
    gives the date. *)
Lemma to_datetime_strftime (z : Z) :
  0 <= fst (fst (civil_from_days z)) <= 9999 ->
  to_datetime (strftime z) = Some z.
Proof.
  intros Hy. unfold strftime.
  pose proof (days_from_civil_from_days z) as Hrt.
  pose proof (civil_from_days_range z) as Hm.
  destruct (civil_from_days z) as [[y m] d] eqn:Hc. cbn [fst snd] in Hy, Hm.
  unfold pad4, pad2. cbn [String.append to_datetime].
  assert (H1 : number2 (digit (y / 1000)) (digit (y / 100)) = Some (y / 100)).
  { replace (y / 1000) with (y / 100 / 10)
      by (Z.to_euclidean_division_equations; lia).
    apply number2_pad. Z.to_euclidean_division_equations. lia. }
  assert (H2 : number2 (digit (y / 10)) (digit y) = Some (y mod 100)).
  { unfold number2. rewrite !digit_value_digit. f_equal.
    Z.to_euclidean_division_equations. lia. }
  rewrite H1, H2, !number2_pad by lia.
  replace (100 * (y / 100) + y mod 100) with y
    by (Z.to_euclidean_division_equations; lia).
  rewrite Hrt, Hc, !Z.eqb_refl. reflexivity.
Qed.

Lemma to_datetime_strftime_range (a b : Z) :
  Timestamp_min <= a -> b <= Timestamp_max ->
  map to_datetime (map strftime (date_range a b))
  = map Some (date_range a b).
Proof.
  intros Ha Hb. rewrite map_map. apply map_ext_in. intros d Hd.
  apply date_range_In in Hd. apply to_datetime_strftime.
  pose proof (timestamp_year_range d ltac:(lia)). lia.
Qed.

Lemma date_range_NoDup (a b : Z) : NoDup (date_range a b).
Proof.
  unfold date_range. apply Injective_map_NoDup; [|apply seq_NoDup].
  intros i j Hij. lia.
Qed.

Lemma date_range_nth_error (a b d : Z) (i : nat) :
  nth_error (date_range a b) i = Some d -> d = a + Z.of_nat i.
Proof.
  intros Hi.
  assert (Hlt : (i < length (date_range a b))%nat)
    by (apply nth_error_Some; congruence).
  rewrite <- (date_range_nth a b i Hlt). symmetry.
  apply nth_error_nth, Hi.
Qed.

(** ** The forecast operation *)

Section ForecastClaims.

Variable sqrt : Q -> Q.
Variable Model : Type.
Variable rf_train : list (list (option Q)) -> list Q -> Model.
Variable rf_predict : Model -> list (option Q) -> Q.

(** What a returned bundle is made of. *)
Lemma forecast_returned (res : QueryResult) (days : Z) (b : ForecastResponse) :
  forecast sqrt Model rf_train rf_predict res days = Returned b ->
  b = empty_response \/
  exists raw train test model,
    load_sales_from_supabase res = inr raw /\ raw <> [] /\
    split_windows (prepare_features sqrt (reconstruct raw)) days
    = (train, test) /\
    train <> [] /\ test <> [] /\
    dates b = map strftime (map Date test) /\
    actual b = map Demand test /\
    predicted b = map (rf_predict model) (map feature_vector test).
Proof.
  unfold forecast.
  destruct (load_sales_from_supabase res) as [e|raw]; [discriminate|].
  destruct raw as [|r0 raw'] eqn:Eraw.
  { cbn [orb]. intros [= <-]. left. reflexivity. }
  rewrite <- Eraw. cbn [orb].
  destruct (Qeq_bool (sumQ (map snd raw)) 0).
  { intros [= <-]. left. reflexivity. }
  destruct (split_windows (prepare_features sqrt (reconstruct raw)) days)
    as [train test] eqn:Esplit.
  unfold model_fit, model_predict.
  destruct train as [|t0 train']; [discriminate|].
  destruct test as [|s0 test']; [discriminate|].
  cbn [map]. intros [= <-]. right.
  exists raw, (t0 :: train'), (s0 :: test').
  exists (rf_train (feature_vector t0 :: map feature_vector train')
                   (Demand t0 :: map Demand train')).
  cbn [dates actual predicted].
  split; [reflexivity|]. split; [rewrite Eraw; discriminate|].
  split; [exact Esplit|]. split; [discriminate|]. split; [discriminate|].
  repeat split.
Qed.

(** C3: without observations, or with observations of total quantity
    zero, the operation returns the empty bundle (and so raises
    nothing). *)
Theorem no_data_sentinel (rows : list (Z * Q)) (days : Z) :
  rows = [] \/ (sumQ (map snd rows) == 0)%Q ->
  forecast sqrt Model rf_train rf_predict (QueryData rows) days
  = Returned {| dates := []; actual := []; predicted := [];
                accuracy := 0%Q |}.
Proof.
  intros Hcase. unfold forecast.
  destruct rows as [|r rows]; [reflexivity|].
  destruct Hcase as [Hnil|Hzero]; [discriminate|].
  unfold load_sales_from_supabase.
  assert (Hsum : Qeq_bool (sumQ (map snd (groupby_sum (r :: rows)))) 0 = true).
  { apply Qeq_bool_iff. rewrite groupby_sum_total. exact Hzero. }
  rewrite Hsum, orb_true_r. reflexivity.
Qed.

(** C8: an empty training window makes the fit raise, and the error
    leaves [forecast] as it is: nothing is returned.  A feature table of
    at most 7 rows always ends this way. *)
Theorem empty_training_window_raises
    (res : QueryResult) (days : Z) (raw : list (Z * Q)) :
  load_sales_from_supabase res = inr raw ->
  raw <> [] -> ~ (sumQ (map snd raw) == 0)%Q ->
  fst (split_windows (prepare_features sqrt (reconstruct raw)) days) = [] ->
  forecast sqrt Model rf_train rf_predict res days = ValueError no_samples /\
  (forall b, forecast sqrt Model rf_train rf_predict res days <> Returned b).
Proof.
  intros Hload Hne Hsum Htrain.
  assert (Hrun : forecast sqrt Model rf_train rf_predict res days
                 = ValueError no_samples).
  { unfold forecast. rewrite Hload.
    destruct raw as [|r0 raw'] eqn:Eraw; [contradiction|].
    rewrite <- Eraw in *. cbn [orb].
    destruct (Qeq_bool (sumQ (map snd raw)) 0) eqn:Ez.
    { apply Qeq_bool_iff in Ez. contradiction. }
    destruct (split_windows (prepare_features sqrt (reconstruct raw)) days) as [train test].
    cbn [fst] in Htrain. subst train. reflexivity. }
  split; [exact Hrun|]. intros b. rewrite Hrun. discriminate.
Qed.

(** C9: in a returned bundle the three sequences have one length. *)
Theorem returned_lengths_agree
    (res : QueryResult) (days : Z) (b : ForecastResponse) :
  forecast sqrt Model rf_train rf_predict res days = Returned b ->
  length (dates b) = length (actual b) /\
  length (actual b) = length (predicted b).
Proof.
  intros Hrun. apply forecast_returned in Hrun.
  destruct Hrun as [->|(raw & train & test & model & _ & _ & _ & _ & _
                        & Hd & Ha & Hp)].
  - split; reflexivity.
  - rewrite Hd, Ha, Hp, !length_map. split; reflexivity.
Qed.

(** C10: the dates of a non-empty returned bundle are the renderings of
    a run of consecutive days [d0, d0 + 1, ..., d1], in this order.  For
    observed dates that pandas can hold, each returned string reads back
    as its day: every date is the day after the one before it, so the
    sequence is strictly increasing and repeats no date. *)
Theorem returned_dates_consecutive
    (rows : list (Z * Q)) (days : Z) (b : ForecastResponse) :
  (forall r, In r rows -> Timestamp_min <= fst r <= Timestamp_max) ->
  forecast sqrt Model rf_train rf_predict (QueryData rows) days = Returned b ->
  dates b <> [] ->
  exists d0 d1,
    d0 <= d1 /\
    dates b = map strftime (date_range d0 d1) /\
    Z.of_nat (length (dates b)) = d1 - d0 + 1 /\
    (forall i, (i < length (dates b))%nat ->
       nth i (dates b) EmptyString = strftime (d0 + Z.of_nat i)) /\
    map to_datetime (dates b) = map Some (date_range d0 d1) /\
    (forall i s s',
       nth_error (dates b) i = Some s ->
       nth_error (dates b) (S i) = Some s' ->
       exists d, to_datetime s = Some d /\ to_datetime s' = Some (d + 1)) /\
    NoDup (dates b).
Proof.
  intros Hts Hrun Hne. apply forecast_returned in Hrun.
  destruct Hrun as [->|(raw & train & test & model & Hload & Hraw & Hsplit
                        & _ & Htest & Hd & _ & _)]; [contradiction|].
  assert (Hgroup : raw = groupby_sum rows).
  { destruct rows; unfold load_sales_from_supabase in Hload;
      injection Hload as <-; reflexivity. }
  destruct raw as [|[r0 q0] raw'] eqn:Eraw; [contradiction|].
  rewrite <- Eraw in *.
  pose proof (reconstruct_dates raw r0 q0 raw' Eraw) as Hgrid.
  assert (Hobs : forall d, In d (map fst raw) ->
                   Timestamp_min <= d <= Timestamp_max).
  { intros d Hin. rewrite Hgroup in Hin.
    apply (proj1 (groupby_sum_dates rows d)) in Hin.
    apply in_map_iff in Hin. destruct Hin as (r & <- & Hr). apply Hts, Hr. }
  assert (Hr0 : In r0 (map fst raw)) by (rewrite Eraw; left; reflexivity).
  destruct (fold_min_spec (map fst raw) r0) as (_ & _ & Hlo_in).
  destruct (fold_max_spec (map fst raw) r0) as (_ & _ & Hhi_in).
  fold (date_min r0 raw) in Hlo_in. fold (date_max r0 raw) in Hhi_in.
  set (lo := date_min r0 raw) in *. set (hi := date_max r0 raw) in *.
  assert (Hlo : Timestamp_min <= lo)
    by (destruct Hlo_in as [->|Hin]; apply Hobs; assumption).
  assert (Hhi : hi <= Timestamp_max)
    by (destruct Hhi_in as [->|Hin]; apply Hobs; assumption).
  set (df_feat := prepare_features sqrt (reconstruct raw)) in *.
  assert (Ht : test = skipn (slice_index (- effective_days df_feat days)
                               df_feat) df_feat).
  { unfold split_windows, slice_from in Hsplit. congruence. }
  set (k := slice_index _ _) in Ht.
  assert (Hdt : map Date test = date_range (lo + Z.of_nat (k + 90)) hi).
  { rewrite Ht. unfold df_feat.
    rewrite prepare_features_skipn, skipn_skipn, <- skipn_map.
    rewrite add_features_dates, Hgrid. apply date_range_skipn. }
  set (d0 := lo + Z.of_nat (k + 90)) in *.
  assert (Hlen : length (dates b) = Z.to_nat (hi - d0 + 1)).
  { rewrite Hd, length_map, Hdt. apply date_range_length. }
  assert (Hpos : (0 < length (dates b))%nat).
  { destruct (dates b); [contradiction | cbn; lia]. }
  assert (Hread : map to_datetime (dates b) = map Some (date_range d0 hi)).
  { rewrite Hd, Hdt. apply to_datetime_strftime_range; lia. }
  exists d0, hi. split; [lia|]. split; [rewrite Hd, Hdt; reflexivity|].
  split; [lia|]. split; [|split; [exact Hread|split]].
  - intros i Hi. rewrite Hd, Hdt.
    rewrite (nth_indep _ EmptyString (strftime 0))
      by (rewrite length_map, date_range_length; lia).
    rewrite map_nth, date_range_nth by (rewrite date_range_length; lia).
    reflexivity.
  - intros i s s' Hs Hs'.
    assert (Hat : forall j t, nth_error (dates b) j = Some t ->
              to_datetime t = Some (d0 + Z.of_nat j)).
    { intros j t Hj.
      assert (Hm : nth_error (map to_datetime (dates b)) j
                   = Some (to_datetime t))
        by (rewrite nth_error_map, Hj; reflexivity).
      rewrite Hread, nth_error_map in Hm.
      destruct (nth_error (date_range d0 hi) j) as [d|] eqn:Hdj;
        [|discriminate Hm].
      apply date_range_nth_error in Hdj. cbn in Hm. congruence. }
    exists (d0 + Z.of_nat i). split; [apply (Hat i s Hs)|].
    rewrite (Hat (S i) s' Hs'). f_equal. lia.
  - apply (NoDup_map_inv to_datetime). rewrite Hread.
    apply Injective_map_NoDup; [|apply date_range_NoDup].
    intros x y Hxy. congruence.
Qed.

End ForecastClaims.

(** * The claims on concrete runs *)

(** ** C1 *)

Lemma horizon_shrink_windows_witness :
  Z.of_nat (length (prepare_features Qsqrt (const_series 100 19000 10))) <= 30 /\
  effective_days (prepare_features Qsqrt (const_series 100 19000 10)) 30 = 7 /\
  length (fst (split_windows
                 (prepare_features Qsqrt (const_series 100 19000 10)) 30))
  = 3%nat /\
  length (snd (split_windows
                 (prepare_features Qsqrt (const_series 100 19000 10)) 30))
  = 7%nat.
Proof.
  assert (HL : Z.of_nat (length (prepare_features Qsqrt
                                   (const_series 100 19000 10))) <= 30)
    by (vm_compute; discriminate).
  split; [exact HL|].
  destruct (horizon_shrink_windows
              (prepare_features Qsqrt (const_series 100 19000 10)) 30 HL)
    as (HE & _ & _ & Htest & Htrain & _).
  split; [rewrite HE; reflexivity|].
  split.
  - apply Nat2Z.inj. rewrite Htrain. reflexivity.
  - apply Nat2Z.inj. rewrite Htest. reflexivity.
Defined.

(** A 93-day history leaves 3 feature rows; with horizon 30 the shrunk
    horizon is 7, but the test window holds 3 rows, not 7, and the
    training window has 0 rows, not 3 - 7. *)
Lemma short_table_test_window_below_7 :
  Z.of_nat (length (prepare_features Qsqrt (const_series 93 19000 10))) <= 30 /\
  Z.max 7 (Z.of_nat (length (prepare_features Qsqrt
                               (const_series 93 19000 10))) / 3) = 7 /\
  length (snd (split_windows
                 (prepare_features Qsqrt (const_series 93 19000 10)) 30))
  = 3%nat /\
  length (fst (split_windows
                 (prepare_features Qsqrt (const_series 93 19000 10)) 30))
  = 0%nat /\
  ~ (7 <= Z.of_nat (length (snd (split_windows
        (prepare_features Qsqrt (const_series 93 19000 10)) 30)))).
Proof.
  split; [vm_compute; discriminate|].
  split; [vm_compute; reflexivity|].
  split; [vm_compute; reflexivity|].
  split; [vm_compute; reflexivity|].
  vm_compute. intros H. apply H. reflexivity.
Qed.

(** ** C2 *)

Lemma reconstruct_daily_series_witness :
  [(5, 3%Q); (9, 1%Q); (5, 4%Q); (7, 1%Q)] <> [] /\
  load_sales_from_supabase
    (QueryData [(5, 3%Q); (9, 1%Q); (5, 4%Q); (7, 1%Q)])
  = inr [(5, 7%Q); (7, 1%Q); (9, 1%Q)] /\
  exists lo hi,
    map fst (reconstruct [(5, 7%Q); (7, 1%Q); (9, 1%Q)]) = date_range lo hi /\
    length (reconstruct [(5, 7%Q); (7, 1%Q); (9, 1%Q)])
    = Z.to_nat (hi - lo + 1).
Proof.
  assert (Hne : [(5, 3%Q); (9, 1%Q); (5, 4%Q); (7, 1%Q)] <> [])
    by discriminate.
  assert (Hload : load_sales_from_supabase
                    (QueryData [(5, 3%Q); (9, 1%Q); (5, 4%Q); (7, 1%Q)])
                  = inr [(5, 7%Q); (7, 1%Q); (9, 1%Q)])
    by reflexivity.
  split; [exact Hne|]. split; [exact Hload|].
  destruct (reconstruct_daily_series _ _ Hne Hload)
    as (lo & hi & _ & _ & _ & Hgrid & Hlen & _).
  exists lo, hi. split; assumption.
Defined.

(** ** C3 *)

Lemma no_data_sentinel_witness :
  ([(5, 0%Q); (7, 0%Q)] = [] \/ (sumQ (map snd [(5, 0%Q); (7, 0%Q)]) == 0)%Q) /\
  forecast Qsqrt Q mean_train mean_predict (QueryData [(5, 0%Q); (7, 0%Q)]) 30
  = Returned {| dates := []; actual := []; predicted := []; accuracy := 0%Q |}.
Proof.
  assert (H : [(5, 0%Q); (7, 0%Q)] = []
              \/ (sumQ (map snd [(5, 0%Q); (7, 0%Q)]) == 0)%Q)
    by (right; reflexivity).
  split; [exact H|].
  exact (no_data_sentinel Qsqrt Q mean_train mean_predict _ 30 H).
Defined.

(** ** C4 *)

Lemma reported_accuracy_spec_witness :
  [10%Q; 20%Q] <> [] /\
  (0 <= round2 (accuracy_of (mape [10%Q; 20%Q] [11%Q; 18%Q])))%Q /\
  (round2 (accuracy_of (mape [10%Q; 20%Q] [11%Q; 18%Q])) <= 100)%Q.
Proof.
  assert (Hne : [10%Q; 20%Q] <> []) by discriminate.
  split; [exact Hne|].
  destruct (reported_accuracy_spec [10%Q; 20%Q] [11%Q; 18%Q] Hne)
    as (_ & _ & Hrange & _).
  exact Hrange.
Defined.

(** One actual of 100000 predicted as 100001: MAPE is about 0.001, the
    accuracy 99.999 is reported as 100.0, and the prediction differs from
    the actual. *)
Lemma accuracy_100_without_equality :
  (round2 (accuracy_of (mape [100000%Q] [100001%Q])) == 100)%Q /\
  [100001%Q] <> [100000%Q] /\ ~ (100001 == 100000)%Q.
Proof.
  split; [reflexivity|]. split; discriminate.
Qed.

(** The same through the whole pipeline: 98 days of demand 100001 and 7
    days of demand 100000, horizon 7, a model that predicts the training
    mean. *)
Example accuracy_100_in_forecast :
  exists b,
    forecast Qsqrt Q mean_train mean_predict
      (QueryData (const_series 98 19000 100001
                  ++ const_series 7 19098 100000)) 7
    = Returned b /\
    (accuracy b == 100)%Q /\
    actual b = repeat 100000%Q 7 /\ predicted b = repeat 100001%Q 7.
Proof.
  eexists. split; [vm_compute; reflexivity|].
  cbn [accuracy actual predicted]. repeat split.
Qed.

(** ** C5 *)

Lemma time_index_is_series_position_witness :
  exists r,
    nth_error (prepare_features Qsqrt (const_series 100 19000 10)) 2 = Some r /\
    TimeIndex r = 92.
Proof.
  destruct (nth_error (prepare_features Qsqrt (const_series 100 19000 10)) 2)
    as [r|] eqn:Hr; [|vm_compute in Hr; discriminate Hr].
  exists r. split; [reflexivity|].
  exact (proj1 (time_index_is_series_position Qsqrt _ 2 r Hr)).
Defined.

(** The first retained row of a 120-day series has time index 90, not 0. *)
Lemma first_time_index_is_90 :
  option_map TimeIndex
    (nth_error (prepare_features Qsqrt (const_series 120 19000 10)) 0)
  = Some 90 /\ 90 <> 0.
Proof.
  split; [vm_compute; reflexivity | discriminate].
Qed.

(** ** C6 *)

(** A 120-day constant series of demand 10: 30 rows are left, not 31, and
    the first of them is day 90 of the series, so 90 rows were dropped,
    not 89. *)
Lemma constant_120_leaves_30 :
  length (prepare_features Qsqrt (const_series 120 19000 10)) = 30%nat /\
  30%nat <> 31%nat /\
  option_map Date
    (nth_error (prepare_features Qsqrt (const_series 120 19000 10)) 0)
  = Some (19000 + 90) /\
  option_map Lag90
    (nth_error (add_features Qsqrt (const_series 120 19000 10)) 89)
  = Some None.
Proof.
  repeat split; try (vm_compute; reflexivity). discriminate.
Qed.

Lemma prepare_features_drops_90_witness :
  exists r,
    In r (prepare_features Qsqrt (const_series 120 19000 10)) /\
    Lag90 r <> None /\
    length (prepare_features Qsqrt (const_series 120 19000 10)) = 30%nat.
Proof.
  destruct (prepare_features_drops_90 Qsqrt (const_series 120 19000 10))
    as (_ & Hlen & _ & Hdef & _).
  destruct (nth_error (prepare_features Qsqrt (const_series 120 19000 10)) 0)
    as [r|] eqn:Hr; [|vm_compute in Hr; discriminate Hr].
  assert (Hin : In r (prepare_features Qsqrt (const_series 120 19000 10)))
    by (apply (nth_error_In _ 0), Hr).
  exists r. split; [exact Hin|]. split.
  - destruct (Hdef r Hin) as (l1 & l7 & l90 & m7 & m14 & s7 & _ & _ & H90 & _).
    rewrite H90. discriminate.
  - rewrite Hlen. reflexivity.
Defined.

(** ** C7 *)

Lemma lag_features_are_past_demand_witness :
  exists r,
    nth_error (prepare_features Qsqrt
                 (map (fun k => (19000 + Z.of_nat k, inject_Z (Z.of_nat k)))
                      (seq 0 100))) 5 = Some r /\
    Lag1 r = Some 94%Q /\ Lag7 r = Some 88%Q /\ Lag90 r = Some 5%Q.
Proof.
  destruct (nth_error (prepare_features Qsqrt
                 (map (fun k => (19000 + Z.of_nat k, inject_Z (Z.of_nat k)))
                      (seq 0 100))) 5)
    as [r|] eqn:Hr; [|vm_compute in Hr; discriminate Hr].
  exists r. split; [reflexivity|].
  destruct (lag_features_are_past_demand Qsqrt _ 5 r Hr)
    as (_ & H1 & H7 & H90 & _).
  rewrite H1, H7, H90. repeat split.
Defined.

(** ** C8 *)

(** A 93-day history with horizon 30: 3 feature rows, no training row,
    and the call ends in the [ValueError] of the fit. *)
Lemma empty_training_window_raises_witness :
  load_sales_from_supabase (QueryData (const_series 93 19000 10))
  = inr (groupby_sum (const_series 93 19000 10)) /\
  groupby_sum (const_series 93 19000 10) <> [] /\
  ~ (sumQ (map snd (groupby_sum (const_series 93 19000 10))) == 0)%Q /\
  fst (split_windows
         (prepare_features Qsqrt
            (reconstruct (groupby_sum (const_series 93 19000 10)))) 30) = [] /\
  forecast Qsqrt Q mean_train mean_predict
    (QueryData (const_series 93 19000 10)) 30
  = ValueError no_samples.
Proof.
  assert (Hload : load_sales_from_supabase (QueryData (const_series 93 19000 10))
                  = inr (groupby_sum (const_series 93 19000 10)))
    by reflexivity.
  assert (Hne : groupby_sum (const_series 93 19000 10) <> [])
    by (vm_compute; discriminate).
  assert (Hsum : ~ (sumQ (map snd (groupby_sum (const_series 93 19000 10)))
                    == 0)%Q)
    by (vm_compute; discriminate).
  assert (Htrain : fst (split_windows
                          (prepare_features Qsqrt
                             (reconstruct
                                (groupby_sum (const_series 93 19000 10)))) 30)
                   = [])
    by (vm_compute; reflexivity).
  repeat (split; [assumption|]).
  exact (proj1 (empty_training_window_raises Qsqrt Q mean_train mean_predict
                  _ 30 _ Hload Hne Hsum Htrain)).
Defined.

(** ** C9 *)

Lemma returned_lengths_agree_witness :
  exists b,
    forecast Qsqrt Q mean_train mean_predict
      (QueryData (const_series 100 19000 10)) 30 = Returned b /\
    length (dates b) = length (actual b) /\
    length (actual b) = length (predicted b).
Proof.
  destruct (forecast Qsqrt Q mean_train mean_predict
              (QueryData (const_series 100 19000 10)) 30)
    as [b|status detail|msg] eqn:Hrun;
    [|vm_compute in Hrun; discriminate Hrun..].
  exists b. split; [reflexivity|].
  exact (returned_lengths_agree Qsqrt Q mean_train mean_predict _ 30 b Hrun).
Defined.

(** ** C10 *)

Lemma returned_dates_consecutive_witness :
  (forall r, In r (const_series 100 19000 10) ->
     Timestamp_min <= fst r <= Timestamp_max) /\
  exists b,
    forecast Qsqrt Q mean_train mean_predict
      (QueryData (const_series 100 19000 10)) 30 = Returned b /\
    dates b <> [] /\
    exists d0 d1, d0 <= d1 /\ dates b = map strftime (date_range d0 d1) /\
      map to_datetime (dates b) = map Some (date_range d0 d1).
Proof.
  assert (Hts : forall r, In r (const_series 100 19000 10) ->
                  Timestamp_min <= fst r <= Timestamp_max).
  { intros r Hr. unfold const_series in Hr. apply in_map_iff in Hr.
    destruct Hr as (k & <- & Hk). apply in_seq in Hk.
    unfold Timestamp_min, Timestamp_max. cbn [fst]. lia. }
  split; [exact Hts|].
  destruct (forecast Qsqrt Q mean_train mean_predict
              (QueryData (const_series 100 19000 10)) 30)
    as [b|status detail|msg] eqn:Hrun;
    [|vm_compute in Hrun; discriminate Hrun..].
  assert (Hne : dates b <> []).
  { vm_compute in Hrun. injection Hrun as <-. discriminate. }
  exists b. split; [reflexivity|]. split; [exact Hne|].
  destruct (returned_dates_consecutive Qsqrt Q mean_train mean_predict
              _ 30 b Hts Hrun Hne) as (d0 & d1 & Hle & Hd & _ & _ & Hread & _).
  exists d0, d1. repeat split; assumption.
Defined.

(** Reading dates: the first date of that run, and a string that is no
    date of the calendar. *)
Example to_datetime_reads_iso :
  to_datetime "2022-04-11" = Some 19093 /\
  strftime 19093 = "2022-04-11"%string /\
  to_datetime "2022-02-30" = None /\
  to_datetime "2022-4-11" = None.
Proof. repeat split. Qed.

(** The run of the last witness in full: seven consecutive days. *)
Example forecast_100_days :
  forecast Qsqrt Q mean_train mean_predict
    (QueryData (const_series 100 19000 10)) 30
  = Returned
      {| dates := ["2022-04-11"; "2022-04-12"; "2022-04-13"; "2022-04-14";
                   "2022-04-15"; "2022-04-16"; "2022-04-17"]%string;
         actual := repeat 10%Q 7;
         predicted := repeat 10%Q 7;
         accuracy := 10000 # 100 |}.
Proof. vm_compute. reflexivity. Qed.


(** * Further properties of the code *)

(** ** Aggregation ([load_sales_from_supabase]) *)

Lemma add_obs_sorted (d : Z) (q : Q) (t : list (Z * Q)) :
  StronglySorted Z.lt (map fst t) ->
  StronglySorted Z.lt (map fst (add_obs d q t)).
Proof.
  induction t as [|[d' q'] t IH]; cbn [add_obs map fst]; intros Hs.
  - constructor; constructor.
  - apply StronglySorted_inv in Hs. destruct Hs as [Hs Hall].
    destruct (Z.ltb_spec d d') as [Hlt|Hge];
      [|destruct (Z.eqb_spec d d') as [Heq|Hne]]; cbn [map fst].
    + constructor.
      * constructor; assumption.
      * constructor; [exact Hlt|].
        apply Forall_forall. intros x Hx.
        rewrite Forall_forall in Hall. specialize (Hall x Hx). lia.
    + constructor; assumption.
    + constructor; [apply IH, Hs|].
      apply Forall_forall. intros x Hx. apply add_obs_dates in Hx.
      destruct Hx as [->|Hx]; [lia|].
      rewrite Forall_forall in Hall. apply Hall, Hx.
Qed.

Lemma groupby_from_sorted (rows t : list (Z * Q)) :
  StronglySorted Z.lt (map fst t) ->
  StronglySorted Z.lt
    (map fst (fold_left (fun t r => add_obs (fst r) (snd r) t) rows t)).
Proof.
  revert t. induction rows as [|r rows IH]; intros t Hs; cbn [fold_left].
  - exact Hs.
  - apply IH, add_obs_sorted, Hs.
Qed.

Lemma sorted_lookup_below (d : Z) (t : list (Z * Q)) :
  Forall (Z.lt d) (map fst t) -> lookup_date d t = None.
Proof.
  intros Hall. apply lookup_date_absent. intros Hin.
  rewrite Forall_forall in Hall. specialize (Hall d Hin). lia.
Qed.

(** In a table sorted by date, [add_obs] changes the cell of its own date
    only: it adds the quantity to the cell, or creates it. *)
Lemma add_obs_lookup (d : Z) (q : Q) (t : list (Z * Q)) (x : Z) :
  StronglySorted Z.lt (map fst t) ->
  lookup_date x (add_obs d q t)
  = if x =? d
    then Some (match lookup_date d t with
               | Some q' => (q' + q)%Q
               | None => q
               end)
    else lookup_date x t.
Proof.
  induction t as [|[d' q'] t IH]; cbn [add_obs map fst]; intros Hs.
  - cbn [lookup_date]. destruct (x =? d); reflexivity.
  - apply StronglySorted_inv in Hs. destruct Hs as [Hs Hall].
    assert (Hbelow : d < d' -> lookup_date d t = None).
    { intros Hlt. apply sorted_lookup_below, Forall_forall. intros y Hy.
      rewrite Forall_forall in Hall. specialize (Hall y Hy). lia. }
    specialize (IH Hs).
    destruct (Z.ltb_spec d d') as [Hlt|Hge];
      [|destruct (Z.eqb_spec d d') as [Heq|Hne]]; cbn [lookup_date].
    + destruct (Z.eqb_spec x d) as [Hxd|Hxd]; [|reflexivity].
      destruct (Z.eqb_spec d d') as [Hdd|_]; [lia|].
      rewrite (Hbelow Hlt). reflexivity.
    + rewrite <- Heq. destruct (Z.eqb_spec x d) as [Hxd|Hxd]; [|reflexivity].
      rewrite Z.eqb_refl. reflexivity.
    + destruct (Z.eqb_spec x d') as [Hxd'|Hxd'].
      * destruct (Z.eqb_spec x d) as [Hxd|_]; [lia | reflexivity].
      * rewrite IH. destruct (Z.eqb_spec x d) as [Hxd|_]; [|reflexivity].
        destruct (Z.eqb_spec d d') as [Hdd|_]; [lia | reflexivity].
Qed.

Lemma groupby_from_lookup (rows t : list (Z * Q)) (x : Z) :
  StronglySorted Z.lt (map fst t) ->
  (fillna0 (lookup_date x
              (fold_left (fun t r => add_obs (fst r) (snd r) t) rows t))
   == fillna0 (lookup_date x t)
      + sumQ (map snd (filter (fun r => fst r =? x) rows)))%Q.
Proof.
  revert t. induction rows as [|[d q] rows IH]; intros t Hs;
    cbn [fold_left filter fst snd].
  - unfold sumQ. cbn. ring.
  - rewrite (IH _ (add_obs_sorted d q t Hs)), (add_obs_lookup d q t x Hs).
    rewrite (Z.eqb_sym d x).
    destruct (Z.eqb_spec x d) as [->|Hxd].
    + cbn [map snd]. rewrite sumQ_cons.
      destruct (lookup_date d t); cbn [fillna0]; ring.
    + reflexivity.
Qed.

(** X1: the frame returned for a non-failing query has one row per
    observed date, in strictly increasing date order, whatever the order
    and the repetitions of the rows received. *)
Theorem load_sales_sorted_unique (rows : list (Z * Q)) :
  exists raw,
    load_sales_from_supabase (QueryData rows) = inr raw /\
    StronglySorted Z.lt (map fst raw) /\
    NoDup (map fst raw) /\
    (forall d, In d (map fst raw) <-> In d (map fst rows)).
Proof.
  exists (groupby_sum rows).
  assert (Hs : StronglySorted Z.lt (map fst (groupby_sum rows)))
    by (apply groupby_from_sorted; constructor).
  split; [destruct rows; reflexivity|].
  split; [exact Hs|]. split; [|apply groupby_sum_dates].
  induction Hs as [|a l Hs IH Hall]; constructor; [|exact IH].
  intros Hin. rewrite Forall_forall in Hall. specialize (Hall a Hin). lia.
Qed.

(** X2: the demand of a date in the returned frame is the sum of the
    quantities of all received rows of that date; a date without rows is
    not in the frame. *)
Theorem load_sales_sums_per_date (rows : list (Z * Q)) (d : Z) :
  exists raw,
    load_sales_from_supabase (QueryData rows) = inr raw /\
    (fillna0 (lookup_date d raw)
     == sumQ (map snd (filter (fun r => fst r =? d) rows)))%Q /\
    (lookup_date d raw <> None <-> In d (map fst rows)).
Proof.
  exists (groupby_sum rows).
  split; [destruct rows; reflexivity|]. split.
  - unfold groupby_sum. rewrite groupby_from_lookup by constructor.
    cbn [lookup_date fillna0]. ring.
  - rewrite <- groupby_sum_dates. split.
    + intros Hsome. destruct (in_dec Z.eq_dec d (map fst (groupby_sum rows)))
        as [Hin|Hout]; [exact Hin|].
      exfalso. apply Hsome, lookup_date_absent, Hout.
    + intros Hin Hnone. revert Hin Hnone.
      induction (groupby_sum rows) as [|[d' q'] t IH];
        cbn [map fst In lookup_date]; [tauto|].
      destruct (Z.eqb_spec d d') as [->|Hne]; [discriminate|].
      intros [Heq|Hin]; [congruence | apply IH, Hin].
Qed.

(** ** Reconstruction (forecast, lines 108-111) *)

Lemma sumQ_map_ext {A : Type} (g h : A -> Q) (l : list A) :
  (forall a, In a l -> g a == h a)%Q ->
  (sumQ (map g l) == sumQ (map h l))%Q.
Proof.
  induction l as [|a l IH]; intros Hgh; cbn [map].
  - reflexivity.
  - rewrite !sumQ_cons, (Hgh a (or_introl eq_refl)), IH; [reflexivity|].
    intros b Hb. apply Hgh. right. exact Hb.
Qed.

Lemma sumQ_map_plus {A : Type} (g h : A -> Q) (l : list A) :
  (sumQ (map (fun a => g a + h a) l) == sumQ (map g l) + sumQ (map h l))%Q.
Proof.
  induction l as [|a l IH]; cbn [map].
  - unfold sumQ. cbn. ring.
  - rewrite !sumQ_cons, IH. ring.
Qed.

Lemma sumQ_indicator_absent (x : Z) (q : Q) (l : list Z) :
  ~ In x l -> (sumQ (map (fun d => if x =? d then q else 0) l) == 0)%Q.
Proof.
  intros Hout. apply sumQ_zero, Forall_forall. intros y Hy.
  apply in_map_iff in Hy. destruct Hy as (d & <- & Hd).
  destruct (Z.eqb_spec x d) as [->|_]; [contradiction | reflexivity].
Qed.

Lemma sumQ_indicator_once (x : Z) (q : Q) (l : list Z) :
  NoDup l -> In x l ->
  (sumQ (map (fun d => if x =? d then q else 0) l) == q)%Q.
Proof.
  induction 1 as [|d l Hd Hnd IH]; cbn [In map]; [tauto|].
  intros Hin. rewrite sumQ_cons.
  destruct (Z.eqb_spec x d) as [->|Hne].
  - rewrite (sumQ_indicator_absent d q l Hd). ring.
  - destruct Hin as [Heq|Hin]; [congruence|]. rewrite (IH Hin). ring.
Qed.

(** Summing, over a list of distinct days that covers the rows, the
    per-day totals gives the total of the rows. *)
Lemma sumQ_by_date (rows : list (Z * Q)) (l : list Z) :
  NoDup l -> (forall r, In r rows -> In (fst r) l) ->
  (sumQ (map (fun d => sumQ (map snd (filter (fun r => fst r =? d) rows))) l)
   == sumQ (map snd rows))%Q.
Proof.
  intros Hnd. induction rows as [|[x q] rows IH]; intros Hcov.
  - cbn [filter map]. apply sumQ_zero, Forall_forall. intros y Hy.
    apply in_map_iff in Hy. destruct Hy as (d & <- & _). reflexivity.
  - rewrite (sumQ_map_ext _
               (fun d => (if x =? d then q else 0)
                         + sumQ (map snd (filter (fun r => fst r =? d) rows)))%Q).
    + rewrite sumQ_map_plus, IH.
      * rewrite sumQ_indicator_once; [cbn [map snd]; rewrite sumQ_cons;
                                      reflexivity | exact Hnd |].
        apply (Hcov (x, q)). left. reflexivity.
      * intros r Hr. apply Hcov. right. exact Hr.
    + intros d _. cbn [filter fst].
      destruct (x =? d); [cbn [map snd]; rewrite sumQ_cons; reflexivity | ring].
Qed.

(** The dates of a non-empty frame lie between its least and greatest. *)
Lemma date_min_max_bounds (d0 : Z) (raw : list (Z * Q)) (d : Z) :
  In d0 (map fst raw) -> In d (map fst raw) ->
  date_min d0 raw <= d <= date_max d0 raw.
Proof.
  intros _ Hd. unfold date_min, date_max.
  destruct (fold_min_spec (map fst raw) d0) as (_ & Hlo & _).
  destruct (fold_max_spec (map fst raw) d0) as (_ & Hhi & _).
  split; [apply Hlo, Hd | apply Hhi, Hd].
Qed.

Lemma reconstruct_demand (raw : list (Z * Q)) (d : Z) (q : Q) :
  In (d, q) (reconstruct raw) -> q = fillna0 (lookup_date d raw).
Proof.
  unfold reconstruct. destruct raw as [|[d0 q0] raw']; [intros []|].
  intros Hin. apply in_map_iff in Hin. destruct Hin as (d' & Heq & _).
  injection Heq as -> <-. reflexivity.
Qed.

(** X3: every day of the reconstructed series carries the sum of the
    quantities of the received rows of that day (0 when there is none). *)
Theorem reconstruct_sums_per_day
    (rows raw : list (Z * Q)) (d : Z) (q : Q) :
  load_sales_from_supabase (QueryData rows) = inr raw ->
  In (d, q) (reconstruct raw) ->
  (q == sumQ (map snd (filter (fun r => fst r =? d) rows)))%Q.
Proof.
  intros Hload Hin.
  assert (Hraw : raw = groupby_sum rows).
  { destruct rows; unfold load_sales_from_supabase in Hload;
      injection Hload as <-; reflexivity. }
  rewrite (reconstruct_demand raw d q Hin), Hraw.
  unfold groupby_sum. rewrite groupby_from_lookup by constructor.
  cbn [lookup_date fillna0]. ring.
Qed.

(** X4: zero-filling the missing days keeps the total: the demand of the
    reconstructed series sums to the total quantity of the received
    rows. *)
Theorem reconstruct_keeps_total (rows raw : list (Z * Q)) :
  load_sales_from_supabase (QueryData rows) = inr raw ->
  (sumQ (map snd (reconstruct raw)) == sumQ (map snd rows))%Q.
Proof.
  intros Hload.
  assert (Hraw : raw = groupby_sum rows).
  { destruct rows; unfold load_sales_from_supabase in Hload;
      injection Hload as <-; reflexivity. }
  destruct raw as [|[d0 q0] raw'] eqn:Eraw.
  { symmetry in Hraw. apply groupby_sum_nil in Hraw. subst rows. reflexivity. }
  rewrite <- Eraw in *.
  assert (Hd0 : In d0 (map fst raw)) by (rewrite Eraw; left; reflexivity).
  assert (Hrec : map snd (reconstruct raw)
                 = map (fun d => fillna0 (lookup_date d raw))
                       (date_range (date_min d0 raw) (date_max d0 raw))).
  { rewrite Eraw at 1. unfold reconstruct. rewrite <- Eraw, map_map.
    reflexivity. }
  rewrite Hrec.
  rewrite (sumQ_map_ext _
             (fun d => sumQ (map snd (filter (fun r => fst r =? d) rows)))).
  - apply sumQ_by_date; [apply date_range_NoDup|].
    intros r Hr. apply date_range_In, date_min_max_bounds; [exact Hd0|].
    rewrite Hraw. apply groupby_sum_dates, in_map, Hr.
  - intros d _. rewrite Hraw. unfold groupby_sum.
    rewrite groupby_from_lookup by constructor.
    cbn [lookup_date fillna0]. ring.
Qed.

(** ** Calendar fields *)

(** ** The feature frame, column by column *)

Section FrameProps.

Variable sqrt : Q -> Q.

(** Row [i] of the frame before [dropna()]: each cell is cell [i] of its
    column. *)
Lemma add_features_row (df : list (Z * Q)) (i : nat) :
  (i < length df)%nat ->
  exists r,
    nth_error (add_features sqrt df) i = Some r /\
    Date r = nth i (map fst df) 0 /\
    Demand r = nth i (map snd df) 0%Q /\
    DayOfWeek r = dayofweek (Date r) /\
    Month r = month (Date r) /\
    IsWeekend r = is_weekend (dayofweek (Date r)) /\
    RollMean7 r = nth i (rolling 7 mean (map snd df)) None /\
    RollMean14 r = nth i (rolling 14 mean (map snd df)) None /\
    RollStd7 r = nth i (rolling 7 (std sqrt) (map snd df)) None /\
    EMA7 r = nth i (ewm_mean 7 (map snd df)) 0%Q /\
    EMA30 r = nth i (ewm_mean 30 (map snd df)) 0%Q.
Proof.
  intros Hi. unfold add_features.
  rewrite nth_error_map, nth_error_seq.
  destruct (Nat.ltb_spec i (length df)) as [_|Hge]; [|lia].
  cbn [option_map Nat.add]. eexists. split; [reflexivity|].
  cbn [Date Demand DayOfWeek Month IsWeekend RollMean7 RollMean14 RollStd7
       EMA7 EMA30].
  repeat split.
Qed.

Lemma add_features_In (df : list (Z * Q)) (r : Row) :
  In r (add_features sqrt df) ->
  exists i, (i < length df)%nat /\ nth_error (add_features sqrt df) i = Some r.
Proof.
  intros Hin. apply In_nth_error in Hin. destruct Hin as [i Hi].
  exists i. split; [|exact Hi].
  rewrite <- (add_features_length sqrt). apply nth_error_Some. congruence.
Qed.

Lemma prepare_features_In (df : list (Z * Q)) (r : Row) :
  In r (prepare_features sqrt df) -> In r (add_features sqrt df).
Proof.
  unfold prepare_features. intros Hin. apply filter_In in Hin. tauto.
Qed.

(** X5: feature engineering adds columns and leaves the series alone: the
    Date and Demand columns of the frame before [dropna()] are the input
    series, row for row. *)
Theorem add_features_keeps_series (df : list (Z * Q)) :
  map (fun r => (Date r, Demand r)) (add_features sqrt df) = df.
Proof.
  apply nth_error_ext. intros i. rewrite nth_error_map.
  destruct (Nat.lt_ge_cases i (length df)) as [Hi|Hi].
  - destruct (add_features_nth sqrt df i Hi) as (r & Hr & Hrow & _).
    rewrite Hr. cbn [option_map]. symmetry. exact Hrow.
  - assert (Hnone : nth_error df i = None) by (apply nth_error_None; exact Hi).
    assert (Hnone' : nth_error (add_features sqrt df) i = None)
      by (apply nth_error_None; rewrite add_features_length; exact Hi).
    rewrite Hnone, Hnone'. reflexivity.
Qed.

(** X6: in every row of the feature table the day of the week is in 0..6,
    the month in 1..12, and the weekend flag is 1 on days 5 and 6 of the
    week and 0 on the others. *)
Theorem calendar_fields_in_range (df : list (Z * Q)) (r : Row) :
  In r (prepare_features sqrt df) ->
  0 <= DayOfWeek r <= 6 /\
  1 <= Month r <= 12 /\
  (IsWeekend r = 1 <-> DayOfWeek r = 5 \/ DayOfWeek r = 6) /\
  (IsWeekend r = 0 <-> 0 <= DayOfWeek r <= 4).
Proof.
  intros Hin. apply prepare_features_In, add_features_In in Hin.
  destruct Hin as (i & Hi & Hr).
  destruct (add_features_row df i Hi)
    as (r' & Hr' & _ & _ & Hdow & Hmon & Hwe & _).
  rewrite Hr in Hr'. injection Hr' as <-.
  assert (Hrange : 0 <= DayOfWeek r <= 6).
  { rewrite Hdow. unfold dayofweek.
    pose proof (Z.mod_pos_bound (Date r + 3) 7 ltac:(lia)). lia. }
  split; [exact Hrange|]. split.
  - rewrite Hmon. unfold month. apply civil_from_days_range.
  - rewrite Hwe, <- Hdow. unfold is_weekend.
    destruct (Z.eqb_spec (DayOfWeek r) 5), (Z.eqb_spec (DayOfWeek r) 6);
      cbn [orb]; split; split; intros; lia.
Qed.

(** X7: the rolling columns of a retained row, at position [i = j + 90]
    of the series, are computed over the 7 (14) demands that end with the
    row's own demand: positions [i - 6 .. i] and [i - 13 .. i]. *)
Theorem rolling_windows_end_today
    (df : list (Z * Q)) (j : nat) (r : Row) :
  nth_error (prepare_features sqrt df) j = Some r ->
  let i := (j + 90)%nat in
  let w7 := firstn 7 (skipn (i - 6) (map snd df)) in
  let w14 := firstn 14 (skipn (i - 13) (map snd df)) in
  RollMean7 r = Some (mean w7) /\
  RollStd7 r = Some (std sqrt w7) /\
  RollMean14 r = Some (mean w14) /\
  length w7 = 7%nat /\ length w14 = 14%nat /\
  nth_error w7 6 = Some (Demand r) /\
  nth_error w14 13 = Some (Demand r).
Proof.
  intros Hr i w7 w14. apply prepare_features_nth in Hr.
  destruct Hr as [Hlen Hr]. fold i in Hlen, Hr.
  destruct (add_features_row df i Hlen)
    as (r' & Hr' & _ & Hdem & _ & _ & _ & H7 & H14 & Hs7 & _).
  rewrite Hr in Hr'. injection Hr' as <-.
  assert (Hd : (i < length (map snd df))%nat) by (rewrite length_map; exact Hlen).
  assert (Hi : (90 <= i)%nat) by (unfold i; lia).
  rewrite rolling_nth in H7, H14, Hs7 by exact Hd.
  destruct (Nat.ltb_spec (i + 1) 7); [lia|].
  destruct (Nat.ltb_spec (i + 1) 14); [lia|].
  replace (i + 1 - 7)%nat with (i - 6)%nat in H7, Hs7 by lia.
  replace (i + 1 - 14)%nat with (i - 13)%nat in H14 by lia.
  split; [exact H7|]. split; [exact Hs7|]. split; [exact H14|].
  unfold w7, w14.
  rewrite !length_firstn, !length_skipn, !nth_error_firstn, !nth_error_skipn.
  cbn [Nat.ltb Nat.leb].
  replace (i - 6 + 6)%nat with i by lia.
  replace (i - 13 + 13)%nat with i by lia.
  rewrite (nth_error_nth' _ 0%Q Hd), <- Hdem.
  repeat split; lia.
Qed.

End FrameProps.

(** ** No look-ahead, and ranges of the smoothed columns *)

Lemma ewm_from_firstn (alpha prev : Q) (xs : list Q) (n : nat) :
  firstn n (ewm_from alpha prev xs) = ewm_from alpha prev (firstn n xs).
Proof.
  revert prev xs. induction n as [|n IH]; intros prev xs.
  - reflexivity.
  - destruct xs as [|x xs]; [reflexivity|].
    cbn [ewm_from firstn]. f_equal. apply IH.
Qed.

Lemma ewm_mean_firstn (span : Z) (xs : list Q) (n : nat) :
  firstn n (ewm_mean span xs) = ewm_mean span (firstn n xs).
Proof.
  destruct n as [|n]; [reflexivity|].
  destruct xs as [|x xs]; [reflexivity|].
  cbn [ewm_mean firstn]. f_equal. apply ewm_from_firstn.
Qed.

Lemma ewm_from_length (alpha prev : Q) (xs : list Q) :
  length (ewm_from alpha prev xs) = length xs.
Proof.
  revert prev. induction xs as [|x xs IH]; intros prev; cbn [ewm_from length].
  - reflexivity.
  - f_equal. apply IH.
Qed.

Lemma ewm_mean_length (span : Z) (xs : list Q) :
  length (ewm_mean span xs) = length xs.
Proof.
  destruct xs as [|x xs]; [reflexivity|].
  cbn [ewm_mean length]. f_equal. apply ewm_from_length.
Qed.

Lemma nth_firstn_here {A : Type} (l : list A) (i j : nat) (d : A) :
  (j <= i)%nat -> nth j (firstn (S i) l) d = nth j l d.
Proof.
  intros Hj. rewrite nth_firstn.
  destruct (Nat.ltb_spec j (S i)); [reflexivity | lia].
Qed.

(** A rolling window ending at row [i] lies within the first [i + 1]
    rows. *)
Lemma window_firstn (w i : nat) (xs : list Q) :
  (w <= i + 1)%nat ->
  firstn w (skipn (i + 1 - w) (firstn (S i) xs))
  = firstn w (skipn (i + 1 - w) xs).
Proof.
  intros Hw. rewrite !firstn_skipn_comm, firstn_firstn.
  replace (Nat.min (i + 1 - w + w) (S i)) with (i + 1 - w + w)%nat by lia.
  reflexivity.
Qed.

Section CausalProps.

Variable sqrt : Q -> Q.

Lemma add_features_prefix (df : list (Z * Q)) (i : nat) :
  (i < length df)%nat ->
  nth_error (add_features sqrt df) i
  = nth_error (add_features sqrt (firstn (S i) df)) i.
Proof.
  intros Hi.
  assert (Hi' : (i < length (firstn (S i) df))%nat)
    by (rewrite length_firstn; lia).
  assert (Hd : (i < length (map snd df))%nat)
    by (rewrite length_map; exact Hi).
  assert (Hd' : (i < length (firstn (S i) (map snd df)))%nat)
    by (rewrite length_firstn; lia).
  unfold add_features. rewrite !nth_error_map, !nth_error_seq.
  destruct (Nat.ltb_spec i (length df)) as [_|Hge]; [|lia].
  destruct (Nat.ltb_spec i (length (firstn (S i) df))) as [_|Hge]; [|lia].
  cbn [option_map Nat.add]. rewrite <- !firstn_map.
  rewrite !shift_nth, !rolling_nth, !arange_nth by assumption.
  rewrite !nth_firstn_here by lia.
  rewrite <- !ewm_mean_firstn, !nth_firstn_here by lia.
  destruct (Nat.ltb_spec (i + 1) 7) as [H7|H7];
    destruct (Nat.ltb_spec (i + 1) 14) as [H14|H14];
    rewrite ?(window_firstn 7 i) by lia;
    rewrite ?(window_firstn 14 i) by lia; reflexivity.
Qed.

(** X8: no feature looks ahead: row [i] of the frame is computed from the
    first [i + 1] days only, so two series that agree on those days have
    the same row [i]. *)
Theorem features_use_no_future
    (df1 df2 : list (Z * Q)) (i : nat) :
  (i < length df1)%nat ->
  firstn (S i) df1 = firstn (S i) df2 ->
  nth_error (add_features sqrt df1) i = nth_error (add_features sqrt df2) i.
Proof.
  intros Hi Hpre.
  assert (Hi2 : (i < length df2)%nat).
  { assert (Hl : length (firstn (S i) df1) = length (firstn (S i) df2))
      by (rewrite Hpre; reflexivity).
    rewrite !length_firstn in Hl. lia. }
  rewrite (add_features_prefix df1 i Hi), (add_features_prefix df2 i Hi2), Hpre.
  reflexivity.
Qed.

End CausalProps.

Lemma ewm_from_between (alpha lo hi prev : Q) (xs : list Q) :
  (0 <= alpha)%Q -> (alpha <= 1)%Q ->
  (lo <= prev)%Q -> (prev <= hi)%Q ->
  Forall (fun x => lo <= x /\ x <= hi)%Q xs ->
  Forall (fun y => lo <= y /\ y <= hi)%Q (ewm_from alpha prev xs).
Proof.
  intros Ha0 Ha1 Hlo Hhi Hxs. revert prev Hlo Hhi.
  induction Hxs as [|x xs [Hx1 Hx2] _ IH]; intros prev Hlo Hhi;
    cbn [ewm_from]; constructor.
  - split; nra.
  - apply IH; nra.
Qed.

Lemma ewm_mean_between (span : Z) (lo hi : Q) (xs : list Q) :
  1 <= span ->
  Forall (fun x => lo <= x /\ x <= hi)%Q xs ->
  Forall (fun y => lo <= y /\ y <= hi)%Q (ewm_mean span xs).
Proof.
  intros Hspan Hxs. destruct Hxs as [|x xs Hx Hxs]; cbn [ewm_mean].
  - constructor.
  - constructor; [exact Hx|].
    assert (Hpos : (0 < inject_Z (span + 1))%Q)
      by (rewrite <- (Zlt_Qlt 0); lia).
    assert (Hge : (2 <= inject_Z (span + 1))%Q)
      by (rewrite <- (Zle_Qle 2); lia).
    destruct Hx as [Hx1 Hx2].
    apply ewm_from_between; try assumption.
    + apply Qle_shift_div_l; [exact Hpos | lra].
    + apply Qle_shift_div_r; [exact Hpos | lra].
Qed.

Lemma sumQ_between (lo hi : Q) (xs : list Q) :
  Forall (fun x => lo <= x /\ x <= hi)%Q xs ->
  (inject_Z (Z.of_nat (length xs)) * lo <= sumQ xs /\
   sumQ xs <= inject_Z (Z.of_nat (length xs)) * hi)%Q.
Proof.
  induction 1 as [|x xs [Hx1 Hx2] _ [IH1 IH2]].
  - cbn [length]. change (inject_Z (Z.of_nat 0)) with 0%Q.
    unfold sumQ. cbn [fold_left]. split; lra.
  - rewrite sumQ_cons. cbn [length]. rewrite Nat2Z.inj_succ.
    unfold Z.succ. rewrite inject_Z_plus.
    change (inject_Z 1) with 1%Q. split; lra.
Qed.

Lemma mean_between (lo hi : Q) (xs : list Q) :
  xs <> [] ->
  Forall (fun x => lo <= x /\ x <= hi)%Q xs ->
  (lo <= mean xs /\ mean xs <= hi)%Q.
Proof.
  intros Hne Hxs. destruct (sumQ_between lo hi xs Hxs) as [H1 H2].
  assert (Hpos : (0 < inject_Z (Z.of_nat (length xs)))%Q).
  { rewrite <- (Zlt_Qlt 0). destruct xs; [contradiction | cbn; lia]. }
  unfold mean. split.
  - apply Qle_shift_div_l; [exact Hpos | lra].
  - apply Qle_shift_div_r; [exact Hpos | lra].
Qed.

Lemma In_firstn_skipn {A : Type} (w k : nat) (l : list A) (x : A) :
  In x (firstn w (skipn k l)) -> In x l.
Proof.
  intros Hin. rewrite <- (firstn_skipn k l). apply in_or_app. right.
  rewrite <- (firstn_skipn w (skipn k l)). apply in_or_app. left. exact Hin.
Qed.

(** X9: the smoothed columns stay within the range of the demand: when
    every demand of the series lies in [lo, hi], so do the two
    exponential averages and the two rolling means of every retained
    row. *)
Theorem smoothed_features_within_range
    (sqrt : Q -> Q) (df : list (Z * Q)) (lo hi : Q) (r : Row) :
  Forall (fun x => lo <= x /\ x <= hi)%Q (map snd df) ->
  In r (prepare_features sqrt df) ->
  (lo <= EMA7 r /\ EMA7 r <= hi)%Q /\
  (lo <= EMA30 r /\ EMA30 r <= hi)%Q /\
  (exists m7, RollMean7 r = Some m7 /\ lo <= m7 /\ m7 <= hi)%Q /\
  (exists m14, RollMean14 r = Some m14 /\ lo <= m14 /\ m14 <= hi)%Q.
Proof.
  intros Hrange Hin. apply In_nth_error in Hin. destruct Hin as [j Hj].
  apply prepare_features_nth in Hj. destruct Hj as [Hlen Hr].
  set (i := (j + 90)%nat) in *.
  destruct (add_features_row sqrt df i Hlen)
    as (r' & Hr' & _ & _ & _ & _ & _ & H7 & H14 & _ & He7 & He30).
  rewrite Hr in Hr'. injection Hr' as <-.
  assert (Hd : (i < length (map snd df))%nat) by (rewrite length_map; exact Hlen).
  assert (Hema : forall span, 1 <= span ->
            (lo <= nth i (ewm_mean span (map snd df)) 0
             /\ nth i (ewm_mean span (map snd df)) 0 <= hi)%Q).
  { intros span Hspan.
    pose proof (ewm_mean_between span lo hi _ Hspan Hrange) as Hall.
    rewrite Forall_forall in Hall. apply Hall, nth_In.
    rewrite ewm_mean_length. exact Hd. }
  assert (Hwin : forall w, (0 < w)%nat -> (w <= i + 1)%nat ->
            (lo <= mean (firstn w (skipn (i + 1 - w) (map snd df)))
             /\ mean (firstn w (skipn (i + 1 - w) (map snd df))) <= hi)%Q).
  { intros w Hw0 Hw. apply mean_between.
    - intros Hnil. apply (f_equal (@length Q)) in Hnil.
      rewrite length_firstn, length_skipn in Hnil. cbn [length] in Hnil. lia.
    - apply Forall_forall. intros x Hx. apply In_firstn_skipn in Hx.
      rewrite Forall_forall in Hrange. apply Hrange, Hx. }
  rewrite rolling_nth in H7, H14 by exact Hd.
  assert (Hi : (90 <= i)%nat) by (unfold i; lia).
  destruct (Nat.ltb_spec (i + 1) 7); [lia|].
  destruct (Nat.ltb_spec (i + 1) 14); [lia|].
  split; [rewrite He7; apply Hema; lia|].
  split; [rewrite He30; apply Hema; lia|].
  split.
  - eexists. split; [exact H7|]. apply Hwin; lia.
  - eexists. split; [exact H14|]. apply Hwin; lia.
Qed.

(** ** Windows and outcomes of [forecast] *)

(** With a horizon of at least 1, the windows have [L - E] and
    [min(L, E)] rows, [E] being the horizon after the shrink. *)
Lemma split_windows_lengths {A : Type} (l : list A) (days : Z) :
  1 <= days ->
  let E := effective_days l days in
  1 <= E /\
  length (fst (split_windows l days)) = (length l - Z.to_nat E)%nat /\
  length (snd (split_windows l days)) = Nat.min (length l) (Z.to_nat E).
Proof.
  intros Hd E.
  assert (HE : 1 <= E).
  { unfold E, effective_days.
    destruct (Z.leb_spec (Z.of_nat (length l)) days); lia. }
  split; [exact HE|].
  unfold split_windows, slice_to, slice_from. cbn [fst snd]. fold E.
  rewrite (slice_index_neg l E HE), length_firstn, length_skipn. lia.
Qed.

(** X10: when the table has more rows than the requested horizon
    [D >= 1], nothing is shrunk: the test window is the last [D] rows and
    the training window all the [L - D] rows before them. *)
Theorem holdout_without_shrink {A : Type} (df_feat : list A) (D : Z) :
  1 <= D -> D < Z.of_nat (length df_feat) ->
  effective_days df_feat D = D /\
  fst (split_windows df_feat D) ++ snd (split_windows df_feat D) = df_feat /\
  Z.of_nat (length (snd (split_windows df_feat D))) = D /\
  Z.of_nat (length (fst (split_windows df_feat D)))
  = Z.of_nat (length df_feat) - D.
Proof.
  intros HD HL.
  assert (HE : effective_days df_feat D = D).
  { unfold effective_days.
    destruct (Z.leb_spec (Z.of_nat (length df_feat)) D); [lia | reflexivity]. }
  destruct (split_windows_lengths df_feat D HD) as (_ & Htrain & Htest).
  rewrite HE in Htrain, Htest.
  split; [exact HE|]. split; [apply split_windows_app|].
  rewrite Htrain, Htest. split; lia.
Qed.

Section OutcomeProps.

Variable sqrt : Q -> Q.
Variable Model : Type.
Variable rf_train : list (list (option Q)) -> list Q -> Model.
Variable rf_predict : Model -> list (option Q) -> Q.

Lemma add_features_demands (df : list (Z * Q)) :
  map Demand (add_features sqrt df) = map snd df.
Proof.
  apply nth_error_ext. intros i. rewrite !nth_error_map.
  destruct (Nat.lt_ge_cases i (length df)) as [Hi|Hi].
  - destruct (add_features_nth sqrt df i Hi) as (r & Hr & Hrow & _).
    rewrite Hr, Hrow. reflexivity.
  - assert (Hnone : nth_error df i = None) by (apply nth_error_None; exact Hi).
    assert (Hnone' : nth_error (add_features sqrt df) i = None)
      by (apply nth_error_None; rewrite add_features_length; exact Hi).
    rewrite Hnone, Hnone'. reflexivity.
Qed.

(** The three ways a call with usable data ends, by the two windows. *)
Lemma forecast_by_windows
    (res : QueryResult) (days : Z) (raw : list (Z * Q))
    (train test : list Row) :
  load_sales_from_supabase res = inr raw ->
  raw <> [] -> ~ (sumQ (map snd raw) == 0)%Q ->
  split_windows (prepare_features sqrt (reconstruct raw)) days
  = (train, test) ->
  forecast sqrt Model rf_train rf_predict res days
  = match train, test with
    | [], _ => ValueError no_samples
    | _ :: _, [] => ValueError no_samples
    | _ :: _, _ :: _ =>
        let model := rf_train (map feature_vector train) (map Demand train) in
        let forecast_vals := map (rf_predict model) (map feature_vector test) in
        Returned
          {| dates := map strftime (map Date test);
             actual := map Demand test;
             predicted := forecast_vals;
             accuracy :=
               round2 (accuracy_of (mape (map Demand test) forecast_vals)) |}
    end.
Proof.
  intros Hload Hne Hsum Hsplit. unfold forecast. rewrite Hload.
  destruct raw as [|r0 raw'] eqn:Eraw; [contradiction|].
  rewrite <- Eraw in *. cbn [orb].
  destruct (Qeq_bool (sumQ (map snd raw)) 0) eqn:Ez.
  { apply Qeq_bool_iff in Ez. contradiction. }
  rewrite Hsplit. unfold model_fit, model_predict.
  destruct train as [|t0 train']; [reflexivity|].
  destruct test as [|s0 test']; reflexivity.
Qed.

(** X11: [forecast] ends in an HTTP error exactly when the loader
    raised (line 95 catches every exception): the status is 500 and the
    detail is the text of the exception, which for an error reported by
    the query is that error behind the prefix of line 57.  An empty error
    is falsy on line 56 and raises nothing. *)
Theorem http_500_iff_loader_raises
    (res : QueryResult) (days status : Z) (detail : string) :
  forecast sqrt Model rf_train rf_predict res days
  = HTTPException status detail
  <-> status = 500 /\
      ((exists e, res = QueryRaises e /\ detail = e) \/
       (exists msg,
          res = QueryError msg /\ msg <> EmptyString /\
          detail = ("Supabase error: " ++ msg)%string)).
Proof.
  split.
  - destruct res as [msg|rows|e].
    + destruct msg as [|c msg'].
      * cbn. discriminate.
      * cbn. intros [= <- <-]. split; [reflexivity|]. right.
        exists (String c msg'). repeat split. discriminate.
    + intros Hrun. exfalso. revert Hrun. unfold forecast.
      destruct (load_sales_from_supabase (QueryData rows)) as [e|raw] eqn:Hload.
      { destruct rows; discriminate Hload. }
      destruct (match raw with [] => true | _ => false end
                || Qeq_bool (sumQ (map snd raw)) 0); [discriminate|].
      destruct (split_windows _ days) as [train test].
      destruct (model_fit Model rf_train _ _); [discriminate|].
      destruct (model_predict Model rf_predict _ _); discriminate.
    + cbn. intros [= <- <-]. split; [reflexivity|]. left.
      exists e. split; reflexivity.
  - intros (-> & [(e & -> & ->)|(msg & -> & Hmsg & ->)]).
    + reflexivity.
    + destruct msg as [|c msg']; [contradiction | reflexivity].
Qed.

(** X12: with a horizon of at least 7 (the least the route accepts) and
    data of non-zero total, the outcome is decided by the span [n] of the
    history in days: up to 97 days the call raises the [ValueError] of
    the fit; from 98 days on it returns a bundle whose length is the
    horizon after the shrink, between 7 and the requested horizon. *)
Theorem history_span_decides_outcome
    (res : QueryResult) (days : Z) (raw : list (Z * Q)) :
  7 <= days ->
  load_sales_from_supabase res = inr raw ->
  raw <> [] -> ~ (sumQ (map snd raw) == 0)%Q ->
  let n := length (reconstruct raw) in
  let run := forecast sqrt Model rf_train rf_predict res days in
  ((n <= 97)%nat -> run = ValueError no_samples) /\
  ((98 <= n)%nat ->
   exists b,
     run = Returned b /\
     Z.of_nat (length (dates b))
     = effective_days (prepare_features sqrt (reconstruct raw)) days /\
     7 <= Z.of_nat (length (dates b)) <= days).
Proof.
  intros Hdays Hload Hne Hsum n run.
  set (df_feat := prepare_features sqrt (reconstruct raw)).
  assert (HL : length df_feat = (n - 90)%nat)
    by apply prepare_features_length.
  destruct (split_windows df_feat days) as [train test] eqn:Hsplit.
  pose proof (forecast_by_windows res days raw train test
                Hload Hne Hsum Hsplit) as Hrun.
  fold run in Hrun.
  destruct (split_windows_lengths df_feat days ltac:(lia))
    as (HE1 & Htrain & Htest).
  rewrite Hsplit in Htrain, Htest. cbn [fst snd] in Htrain, Htest.
  assert (HE : effective_days df_feat days
               = if Z.of_nat (n - 90) <=? days
                 then Z.max 7 (Z.of_nat (n - 90) / 3) else days)
    by (unfold effective_days; rewrite HL; reflexivity).
  assert (Hdiv : Z.of_nat (n - 90) / 3 <= Z.of_nat (n - 90))
    by (apply Z.div_le_upper_bound; lia).
  split.
  - intros Hn. rewrite Hrun.
    assert (Hnil : train = []).
    { apply length_zero_iff_nil. rewrite Htrain, HL, HE.
      destruct (Z.leb_spec (Z.of_nat (n - 90)) days); lia. }
    rewrite Hnil. reflexivity.
  - intros Hn.
    assert (Hdiv' : Z.of_nat (n - 90) / 3 < Z.of_nat (n - 90))
      by (apply Z.div_lt_upper_bound; lia).
    assert (Hlt : effective_days df_feat days < Z.of_nat (n - 90)).
    { rewrite HE. destruct (Z.leb_spec (Z.of_nat (n - 90)) days); lia. }
    assert (Htr : (0 < length train)%nat) by lia.
    assert (Hte : Z.of_nat (length test) = effective_days df_feat days) by lia.
    destruct train as [|t0 train']; [cbn in Htr; lia|].
    destruct test as [|s0 test']; [cbn in Hte; lia|].
    eexists. split; [exact Hrun|]. cbn [dates].
    rewrite !length_map. split; [exact Hte|].
    rewrite Hte, HE.
    destruct (Z.leb_spec (Z.of_nat (n - 90)) days); lia.
Qed.

(** X13: a returned bundle reports the end of the reconstructed series:
    its dates and actuals are the dates and demands of the last rows of
    that series, unchanged and in order. *)
Theorem returned_actuals_are_series_suffix
    (res : QueryResult) (days : Z) (b : ForecastResponse) :
  forecast sqrt Model rf_train rf_predict res days = Returned b ->
  exists raw m,
    load_sales_from_supabase res = inr raw /\
    dates b = map strftime (map fst (skipn m (reconstruct raw))) /\
    actual b = map snd (skipn m (reconstruct raw)) /\
    length (actual b) = (length (reconstruct raw) - m)%nat.
Proof.
  intros Hrun.
  destruct (load_sales_from_supabase res) as [e|raw] eqn:Hload.
  { unfold forecast in Hrun. rewrite Hload in Hrun. discriminate Hrun. }
  apply forecast_returned in Hrun.
  destruct Hrun as [->|(raw' & train & test & model & Hload' & _ & Hsplit
                        & _ & _ & Hd & Ha & _)].
  - exists raw, (length (reconstruct raw)).
    rewrite skipn_all, Nat.sub_diag. repeat split.
  - rewrite Hload in Hload'. injection Hload' as <-.
    set (df := reconstruct raw) in *.
    set (df_feat := prepare_features sqrt df) in *.
    set (k := slice_index (- effective_days df_feat days) df_feat).
    assert (Ht : test = skipn k df_feat).
    { unfold split_windows, slice_from in Hsplit. fold k in Hsplit. congruence. }
    exists raw, (k + 90)%nat. fold df.
    assert (Hdates : map Date test = map fst (skipn (k + 90) df)).
    { rewrite Ht. unfold df_feat.
      rewrite prepare_features_skipn, skipn_skipn, <- !skipn_map.
      rewrite add_features_dates. reflexivity. }
    assert (Hdem : map Demand test = map snd (skipn (k + 90) df)).
    { rewrite Ht. unfold df_feat.
      rewrite prepare_features_skipn, skipn_skipn, <- !skipn_map.
      rewrite add_features_demands. reflexivity. }
    split; [reflexivity|]. split; [rewrite Hd, Hdates; reflexivity|].
    split; [rewrite Ha, Hdem; reflexivity|].
    rewrite Ha, Hdem, length_map, length_skipn. reflexivity.
Qed.

End OutcomeProps.

(** ** Rounding and clamping of the accuracy *)

Lemma round_half_even_error (x : Q) :
  (- (1 # 2) <= inject_Z (round_half_even x) - x
   /\ inject_Z (round_half_even x) - x <= 1 # 2)%Q.
Proof.
  pose proof (Qfloor_le x) as Hfl. pose proof (Qlt_floor x) as Hfu.
  rewrite inject_Z_succ in Hfu.
  destruct (round_half_even_cases x) as [[-> Hside]|[-> Hside]].
  - destruct Hside as [H|[H _]]; split; lra.
  - rewrite inject_Z_succ. destruct Hside as [H|[H _]]; split; lra.
Qed.

Lemma round_half_even_0 (x : Q) :
  (0 <= x)%Q -> round_half_even x = 0 <-> (x <= 1 # 2)%Q.
Proof.
  intros Hx.
  pose proof (Qfloor_le x) as Hfl.
  assert (Hf : 0 <= Qfloor x).
  { change 0 with (Qfloor (inject_Z 0)). apply Qfloor_resp_le. exact Hx. }
  split.
  - intros Hr.
    destruct (round_half_even_cases x) as [[Hc Hside]|[Hc _]];
      rewrite Hc in Hr; [|lia].
    rewrite Hr in Hside. change (inject_Z 0) with 0%Q in Hside.
    destruct Hside as [H|[H _]]; lra.
  - intros Hhalf.
    assert (Hf0 : Qfloor x = 0).
    { assert (Qfloor x <= Qfloor (1 # 2)) by (apply Qfloor_resp_le, Hhalf).
      change (Qfloor (1 # 2)) with 0 in H. lia. }
    destruct (round_half_even_cases x) as [[Hc _]|[_ Hside]]; [lia|].
    exfalso. rewrite Hf0 in Hside. change (inject_Z 0) with 0%Q in Hside.
    destruct Hside as [H|[_ H]]; [lra | discriminate H].
Qed.

(** X14: [round(x, 2)] moves a value by at most 0.005, to a multiple of
    0.01. *)
Theorem round2_error (x : Q) :
  (Qabs (round2 x - x) <= 1 # 200)%Q /\
  exists k : Z, (round2 x == inject_Z k / 100)%Q.
Proof.
  split; [|exists (round_half_even (x * 100)); reflexivity].
  destruct (round_half_even_error (x * 100)) as [Hlo Hhi].
  apply Qabs_Qle_condition. unfold round2.
  assert (Heq : (inject_Z (round_half_even (x * 100)) / 100 - x
                 == (inject_Z (round_half_even (x * 100)) - x * 100) / 100)%Q)
    by field.
  rewrite Heq. split.
  - apply Qle_shift_div_l; lra.
  - apply Qle_shift_div_r; lra.
Qed.

(** X15: the reported accuracy is 0.0 exactly when the error is not a
    finite number (a zero denominator) or MAPE is at least 99.995; in
    particular for every MAPE of 100 or more, where [max] clamps. *)
Theorem accuracy_zero_iff (actual forecast_vals : list Q) :
  (round2 (accuracy_of (mape actual forecast_vals)) == 0)%Q
  <-> mape actual forecast_vals = None
      \/ exists m, mape actual forecast_vals = Some m /\ (19999 # 200 <= m)%Q.
Proof.
  assert (Hnn : forall v, mape actual forecast_vals = Some v -> (0 <= v)%Q)
    by (intros v Hv; apply (mape_nonneg actual forecast_vals v Hv)).
  destruct (accuracy_of_range _ Hnn) as [Ha0 Ha100].
  assert (Hr : forall a, (0 <= a)%Q ->
                 (round2 a == 0)%Q <-> (a <= 1 # 200)%Q).
  { intros a Ha. unfold round2.
    assert (Hz : (inject_Z (round_half_even (a * 100)) / 100 == 0)%Q
                 <-> round_half_even (a * 100) = 0).
    { split.
      - intros H. apply inject_Z_injective. change (inject_Z 0) with 0%Q.
        assert (Hm : (inject_Z (round_half_even (a * 100)) / 100 * 100
                      == inject_Z (round_half_even (a * 100)))%Q) by field.
        rewrite <- Hm, H. reflexivity.
      - intros ->. reflexivity. }
    rewrite Hz, round_half_even_0 by lra. split; intros H; lra. }
  rewrite (Hr _ Ha0). unfold accuracy_of.
  destruct (mape actual forecast_vals) as [m|].
  - specialize (Hnn m eq_refl).
    destruct (Qlt_le_dec 0 (100 - m)) as [Hpos|Hneg]; split.
    + intros H. right. exists m. split; [reflexivity | lra].
    + intros [Hnone|(v & [= <-] & Hv)]; [discriminate | lra].
    + intros _. right. exists m. split; [reflexivity | lra].
    + intros _. lra.
  - split; [intros _; left; reflexivity | intros _; lra].
Qed.

Lemma sumQ_ge_member (xs : list Q) (x : Q) :
  Forall (fun y => 0 <= y)%Q xs -> In x xs -> (x <= sumQ xs)%Q.
Proof.
  induction 1 as [|y xs Hy Hxs IH]; cbn [In]; [tauto|].
  rewrite sumQ_cons. pose proof (sumQ_nonneg xs Hxs) as Hs.
  intros [->|Hin]; [lra|]. specialize (IH Hin). lra.
Qed.

(** X16: one day of the test window with actual demand 0 and a prediction
    of at least [n * 1e-5] in absolute value, [n] being the number of
    test days, brings the reported accuracy to 0.0, whatever the other
    days: its ratio is divided by the 1e-5 alone. *)
Theorem zero_demand_day_zeroes_accuracy
    (actual forecast_vals : list Q) (p : Q) :
  length actual = length forecast_vals ->
  In (0%Q, p) (combine actual forecast_vals) ->
  (inject_Z (Z.of_nat (length actual)) / 100000 <= Qabs p)%Q ->
  (round2 (accuracy_of (mape actual forecast_vals)) == 0)%Q.
Proof.
  intros Hlen Hin Hp. apply accuracy_zero_iff.
  destruct (mape actual forecast_vals) as [m|] eqn:Hm;
    [right | left; reflexivity].
  exists m. split; [reflexivity|].
  unfold mape in Hm. destruct actual as [|a0 actual']; [discriminate|].
  destruct (finite_ratios (a0 :: actual')); [|discriminate].
  set (ratios := map abs_ratio (combine (a0 :: actual') forecast_vals)) in *.
  injection Hm as <-.
  assert (Hn : length ratios = length (a0 :: actual')).
  { unfold ratios. rewrite length_map, length_combine, <- Hlen. lia. }
  assert (Hnonneg : Forall (fun y => 0 <= y)%Q ratios).
  { apply Forall_forall. intros y Hy. apply in_map_iff in Hy.
    destruct Hy as (af & <- & _). apply Qabs_nonneg. }
  assert (Hratio : (abs_ratio (0%Q, p) == Qabs p * 100000)%Q).
  { unfold abs_ratio, eps. cbn [fst snd].
    assert (He : ((0 - p) / (0 + (1 # 100000)) == - (p * 100000))%Q) by field.
    rewrite (Qabs_wd _ _ He), Qabs_opp, Qabs_Qmult. reflexivity. }
  assert (Hmem : (abs_ratio (0%Q, p) <= sumQ ratios)%Q).
  { apply sumQ_ge_member; [exact Hnonneg|].
    unfold ratios. apply in_map. exact Hin. }
  assert (Hpos : (0 < inject_Z (Z.of_nat (length (a0 :: actual'))))%Q)
    by (rewrite <- (Zlt_Qlt 0); cbn [length]; lia).
  assert (Hbig : (inject_Z (Z.of_nat (length (a0 :: actual')))
                  <= Qabs p * 100000)%Q).
  { assert (Hx : (inject_Z (Z.of_nat (length (a0 :: actual'))) / 100000
                  * 100000
                  == inject_Z (Z.of_nat (length (a0 :: actual'))))%Q) by field.
    lra. }
  assert (Hmean : (1 <= mean ratios)%Q).
  { unfold mean. rewrite Hn. apply Qle_shift_div_l; [exact Hpos | lra]. }
  lra.
Qed.

(** ** Order of the received rows *)




(** ** The empty bundle and the calendar meaning of the lags *)

Section SentinelProps.

Variable sqrt : Q -> Q.
Variable Model : Type.
Variable rf_train : list (list (option Q)) -> list Q -> Model.
Variable rf_predict : Model -> list (option Q) -> Q.

(** X18: the empty bundle means "no data" and nothing else: a returned
    bundle has no dates exactly when no row was received or the
    quantities sum to zero. *)
Theorem empty_bundle_iff_no_data
    (rows : list (Z * Q)) (days : Z) (b : ForecastResponse) :
  forecast sqrt Model rf_train rf_predict (QueryData rows) days = Returned b ->
  (dates b = [] <-> rows = [] \/ (sumQ (map snd rows) == 0)%Q).
Proof.
  intros Hrun. split.
  - intros Hnil.
    destruct rows as [|r rows']; [left; reflexivity|]. right.
    set (rows := r :: rows') in *.
    destruct (Qeq_dec (sumQ (map snd rows)) 0) as [Hz|Hnz]; [exact Hz|].
    exfalso.
    assert (Hload : load_sales_from_supabase (QueryData rows)
                    = inr (groupby_sum rows)) by reflexivity.
    assert (Hne : groupby_sum rows <> []).
    { intros Hg. apply groupby_sum_nil in Hg. discriminate Hg. }
    assert (Hsum : ~ (sumQ (map snd (groupby_sum rows)) == 0)%Q)
      by (rewrite groupby_sum_total; exact Hnz).
    destruct (split_windows
                (prepare_features sqrt (reconstruct (groupby_sum rows))) days)
      as [train test] eqn:Hsplit.
    rewrite (forecast_by_windows sqrt Model rf_train rf_predict _ days _
               train test Hload Hne Hsum Hsplit) in Hrun.
    destruct train as [|t0 train']; [discriminate Hrun|].
    destruct test as [|s0 test']; [discriminate Hrun|].
    injection Hrun as <-. discriminate Hnil.
  - intros Hcase.
    assert (Hsent : forecast sqrt Model rf_train rf_predict
                      (QueryData rows) days = Returned empty_response).
    { unfold forecast. destruct rows as [|r rows']; [reflexivity|].
      destruct Hcase as [Hnil|Hzero]; [discriminate|].
      unfold load_sales_from_supabase.
      assert (Hsum : Qeq_bool (sumQ (map snd (groupby_sum (r :: rows')))) 0
                     = true)
        by (apply Qeq_bool_iff; rewrite groupby_sum_total; exact Hzero).
      rewrite Hsum, orb_true_r. reflexivity. }
    rewrite Hsent in Hrun. injection Hrun as <-. reflexivity.
Qed.

(** X19: on the reconstructed series a lag is a lag in calendar days: the
    Lag1, Lag7 and Lag90 of a retained row are the demands that the
    series holds for the dates 1, 7 and 90 days before the row's date. *)
Theorem lags_are_calendar_lags
    (raw : list (Z * Q)) (j : nat) (r : Row) :
  nth_error (prepare_features sqrt (reconstruct raw)) j = Some r ->
  exists q1 q7 q90,
    Lag1 r = Some q1 /\ In (Date r - 1, q1) (reconstruct raw) /\
    Lag7 r = Some q7 /\ In (Date r - 7, q7) (reconstruct raw) /\
    Lag90 r = Some q90 /\ In (Date r - 90, q90) (reconstruct raw).
Proof.
  intros Hr.
  destruct raw as [|[d0 q0] raw'] eqn:Eraw.
  { destruct j; discriminate Hr. }
  rewrite <- Eraw in *.
  pose proof (reconstruct_dates raw d0 q0 raw' Eraw) as Hgrid.
  set (df := reconstruct raw) in *.
  set (lo := date_min d0 raw) in *. set (hi := date_max d0 raw) in *.
  apply prepare_features_nth in Hr. destruct Hr as [Hlen Hr].
  set (i := (j + 90)%nat) in *.
  destruct (add_features_nth sqrt df i Hlen)
    as (r' & Hr' & Hrow & H1 & H7 & H90 & _).
  rewrite Hr in Hr'. injection Hr' as <-.
  assert (Hat : forall m, (m < length df)%nat ->
            nth_error df m
            = Some (lo + Z.of_nat m, nth m (map snd df) 0%Q)).
  { intros m Hm. rewrite (nth_error_nth' df (0, 0%Q) Hm). f_equal.
    pose proof (map_nth fst df (0, 0%Q) m) as Hf.
    pose proof (map_nth snd df (0, 0%Q) m) as Hs.
    cbn [fst snd] in Hf, Hs.
    assert (Hdm : nth m (map fst df) 0 = lo + Z.of_nat m).
    { rewrite Hgrid. apply date_range_nth.
      rewrite <- Hgrid, length_map. exact Hm. }
    rewrite Hs, <- Hdm, Hf. destruct (nth m df (0, 0%Q)); reflexivity. }
  assert (Hdate : Date r = lo + Z.of_nat i).
  { rewrite (Hat i Hlen) in Hrow. congruence. }
  assert (Hi : (90 <= i)%nat) by (unfold i; lia).
  destruct (Nat.ltb_spec i 1); [lia|].
  destruct (Nat.ltb_spec i 7); [lia|].
  destruct (Nat.ltb_spec i 90); [lia|].
  assert (Hin : forall k, (1 <= k <= 90)%nat ->
            In (Date r - Z.of_nat k, nth (i - k) (map snd df) 0%Q) df).
  { intros k Hk. apply (nth_error_In df (i - k)).
    rewrite (Hat (i - k)%nat) by lia. f_equal. f_equal. lia. }
  eexists _, _, _.
  split; [exact H1|]. split; [apply (Hin 1%nat); lia|].
  split; [exact H7|]. split; [apply (Hin 7%nat); lia|].
  split; [exact H90|]. apply (Hin 90%nat); lia.
Qed.

End SentinelProps.

(** * The further properties on concrete runs *)

Lemma reconstruct_sums_per_day_witness :
  load_sales_from_supabase
    (QueryData [(5, 3%Q); (9, 1%Q); (5, 4%Q); (7, 1%Q)])
  = inr [(5, 7%Q); (7, 1%Q); (9, 1%Q)] /\
  In (5, 7%Q) (reconstruct [(5, 7%Q); (7, 1%Q); (9, 1%Q)]) /\
  (7 == sumQ (map snd (filter (fun r => (fst r =? 5)%Z)
                         [(5%Z, 3); (9%Z, 1); (5%Z, 4); (7%Z, 1)])))%Q.
Proof.
  assert (Hload : load_sales_from_supabase
                    (QueryData [(5, 3%Q); (9, 1%Q); (5, 4%Q); (7, 1%Q)])
                  = inr [(5, 7%Q); (7, 1%Q); (9, 1%Q)]) by reflexivity.
  assert (Hin : In (5, 7%Q) (reconstruct [(5, 7%Q); (7, 1%Q); (9, 1%Q)]))
    by (left; reflexivity).
  split; [exact Hload|]. split; [exact Hin|].
  exact (reconstruct_sums_per_day _ _ 5 7%Q Hload Hin).
Defined.

Lemma reconstruct_keeps_total_witness :
  load_sales_from_supabase
    (QueryData [(5, 3%Q); (9, 1%Q); (5, 4%Q); (7, 1%Q)])
  = inr [(5, 7%Q); (7, 1%Q); (9, 1%Q)] /\
  (sumQ (map snd (reconstruct [(5%Z, 7); (7%Z, 1); (9%Z, 1)]))
   == sumQ (map snd [(5%Z, 3); (9%Z, 1); (5%Z, 4); (7%Z, 1)]))%Q.
Proof.
  assert (Hload : load_sales_from_supabase
                    (QueryData [(5, 3%Q); (9, 1%Q); (5, 4%Q); (7, 1%Q)])
                  = inr [(5, 7%Q); (7, 1%Q); (9, 1%Q)]) by reflexivity.
  split; [exact Hload|].
  exact (reconstruct_keeps_total _ _ Hload).
Defined.

Lemma calendar_fields_in_range_witness :
  exists r,
    In r (prepare_features Qsqrt (const_series 100 19000 10)) /\
    0 <= DayOfWeek r <= 6 /\ 1 <= Month r <= 12.
Proof.
  destruct (nth_error (prepare_features Qsqrt (const_series 100 19000 10)) 0)
    as [r|] eqn:Hr; [|vm_compute in Hr; discriminate Hr].
  assert (Hin : In r (prepare_features Qsqrt (const_series 100 19000 10)))
    by (apply (nth_error_In _ 0), Hr).
  exists r. split; [exact Hin|].
  destruct (calendar_fields_in_range Qsqrt _ r Hin) as (Hd & Hm & _).
  split; assumption.
Defined.

Lemma rolling_windows_end_today_witness :
  exists r,
    nth_error (prepare_features Qsqrt (const_series 100 19000 10)) 3 = Some r /\
    nth_error (firstn 7 (skipn (3 + 90 - 6)
                           (map snd (const_series 100 19000 10)))) 6
    = Some (Demand r).
Proof.
  destruct (nth_error (prepare_features Qsqrt (const_series 100 19000 10)) 3)
    as [r|] eqn:Hr; [|vm_compute in Hr; discriminate Hr].
  exists r. split; [reflexivity|].
  destruct (rolling_windows_end_today Qsqrt _ 3 r Hr)
    as (_ & _ & _ & _ & _ & Hlast & _).
  exact Hlast.
Defined.

Lemma features_use_no_future_witness :
  (2 < length (const_series 10 19000 5))%nat /\
  firstn 3 (const_series 10 19000 5)
  = firstn 3 (const_series 3 19000 5 ++ [(19003, 9%Q)]) /\
  nth_error (add_features Qsqrt (const_series 10 19000 5)) 2
  = nth_error (add_features Qsqrt
                 (const_series 3 19000 5 ++ [(19003, 9%Q)])) 2.
Proof.
  assert (Hi : (2 < length (const_series 10 19000 5))%nat)
    by (vm_compute; lia).
  assert (Hpre : firstn 3 (const_series 10 19000 5)
                 = firstn 3 (const_series 3 19000 5 ++ [(19003, 9%Q)]))
    by reflexivity.
  split; [exact Hi|]. split; [exact Hpre|].
  exact (features_use_no_future Qsqrt _ _ 2 Hi Hpre).
Defined.

Lemma smoothed_features_within_range_witness :
  exists r,
    Forall (fun x => 0 <= x /\ x <= 10)%Q
           (map snd (const_series 100 19000 10)) /\
    In r (prepare_features Qsqrt (const_series 100 19000 10)) /\
    (0 <= EMA30 r /\ EMA30 r <= 10)%Q.
Proof.
  assert (Hrange : Forall (fun x => 0 <= x /\ x <= 10)%Q
                          (map snd (const_series 100 19000 10))).
  { apply Forall_forall. intros x Hx. unfold const_series in Hx.
    rewrite map_map in Hx. apply in_map_iff in Hx.
    destruct Hx as (k & <- & _). cbn [snd]. split; discriminate. }
  destruct (nth_error (prepare_features Qsqrt (const_series 100 19000 10)) 0)
    as [r|] eqn:Hr; [|vm_compute in Hr; discriminate Hr].
  assert (Hin : In r (prepare_features Qsqrt (const_series 100 19000 10)))
    by (apply (nth_error_In _ 0), Hr).
  exists r. split; [exact Hrange|]. split; [exact Hin|].
  destruct (smoothed_features_within_range Qsqrt _ 0 10 r Hrange Hin)
    as (_ & H30 & _).
  exact H30.
Defined.

Lemma holdout_without_shrink_witness :
  1 <= 3 /\ 3 < Z.of_nat (length (seq 0 10)) /\
  Z.of_nat (length (snd (split_windows (seq 0 10) 3))) = 3 /\
  Z.of_nat (length (fst (split_windows (seq 0 10) 3))) = 7.
Proof.
  assert (H1 : 1 <= 3) by lia.
  assert (H2 : 3 < Z.of_nat (length (seq 0 10))) by (vm_compute; reflexivity).
  split; [exact H1|]. split; [exact H2|].
  destruct (holdout_without_shrink (seq 0 10) 3 H1 H2)
    as (_ & _ & Htest & Htrain).
  split; [exact Htest|]. rewrite Htrain. reflexivity.
Defined.

Lemma history_span_decides_outcome_witness :
  7 <= 30 /\
  load_sales_from_supabase (QueryData (const_series 100 19000 10))
  = inr (groupby_sum (const_series 100 19000 10)) /\
  groupby_sum (const_series 100 19000 10) <> [] /\
  ~ (sumQ (map snd (groupby_sum (const_series 100 19000 10))) == 0)%Q /\
  (98 <= length (reconstruct (groupby_sum (const_series 100 19000 10))))%nat /\
  exists b,
    forecast Qsqrt Q mean_train mean_predict
      (QueryData (const_series 100 19000 10)) 30 = Returned b /\
    7 <= Z.of_nat (length (dates b)) <= 30.
Proof.
  assert (Hdays : 7 <= 30) by lia.
  assert (Hload : load_sales_from_supabase
                    (QueryData (const_series 100 19000 10))
                  = inr (groupby_sum (const_series 100 19000 10)))
    by reflexivity.
  assert (Hne : groupby_sum (const_series 100 19000 10) <> [])
    by (vm_compute; discriminate).
  assert (Hsum : ~ (sumQ (map snd (groupby_sum (const_series 100 19000 10)))
                    == 0)%Q)
    by (vm_compute; discriminate).
  assert (Hn : (98 <= length (reconstruct
                                (groupby_sum (const_series 100 19000 10))))%nat)
    by (vm_compute; lia).
  repeat (split; [assumption|]).
  destruct (proj2 (history_span_decides_outcome Qsqrt Q mean_train mean_predict
                     _ 30 _ Hdays Hload Hne Hsum) Hn)
    as (b & Hrun & _ & Hb).
  exists b. split; assumption.
Defined.

Lemma returned_actuals_are_series_suffix_witness :
  exists b raw m,
    forecast Qsqrt Q mean_train mean_predict
      (QueryData (const_series 100 19000 10)) 30 = Returned b /\
    load_sales_from_supabase (QueryData (const_series 100 19000 10))
    = inr raw /\
    actual b = map snd (skipn m (reconstruct raw)).
Proof.
  destruct (forecast Qsqrt Q mean_train mean_predict
              (QueryData (const_series 100 19000 10)) 30)
    as [b|status detail|msg] eqn:Hrun;
    [|vm_compute in Hrun; discriminate Hrun..].
  destruct (returned_actuals_are_series_suffix
              Qsqrt Q mean_train mean_predict _ 30 b Hrun)
    as (raw & m & Hload & _ & Ha & _).
  exists b, raw, m. split; [reflexivity|]. split; assumption.
Defined.

Lemma zero_demand_day_zeroes_accuracy_witness :
  length [0%Q; 10%Q] = length [1%Q; 10%Q] /\
  In (0%Q, 1%Q) (combine [0%Q; 10%Q] [1%Q; 10%Q]) /\
  (inject_Z (Z.of_nat (length [0%Q; 10%Q])) / 100000 <= Qabs 1)%Q /\
  (round2 (accuracy_of (mape [0%Q; 10%Q] [1%Q; 10%Q])) == 0)%Q.
Proof.
  assert (Hlen : length [0%Q; 10%Q] = length [1%Q; 10%Q]) by reflexivity.
  assert (Hin : In (0%Q, 1%Q) (combine [0%Q; 10%Q] [1%Q; 10%Q]))
    by (left; reflexivity).
  assert (Hp : (inject_Z (Z.of_nat (length [0%Q; 10%Q])) / 100000
                <= Qabs 1)%Q)
    by (vm_compute; discriminate).
  repeat (split; [assumption|]).
  exact (zero_demand_day_zeroes_accuracy _ _ 1 Hlen Hin Hp).
Defined.


Lemma empty_bundle_iff_no_data_witness :
  forecast Qsqrt Q mean_train mean_predict (QueryData [(5, 0%Q); (7, 0%Q)]) 30
  = Returned empty_response /\
  (dates empty_response = []
   <-> [(5, 0%Q); (7, 0%Q)] = []
       \/ (sumQ (map snd [(5%Z, 0); (7%Z, 0)]) == 0)%Q).
Proof.
  assert (Hrun : forecast Qsqrt Q mean_train mean_predict
                   (QueryData [(5, 0%Q); (7, 0%Q)]) 30
                 = Returned empty_response) by reflexivity.
  split; [exact Hrun|].
  exact (empty_bundle_iff_no_data Qsqrt Q mean_train mean_predict
           _ 30 _ Hrun).
Defined.

Lemma lags_are_calendar_lags_witness :
  exists r q7,
    nth_error (prepare_features Qsqrt
                 (reconstruct (const_series 100 19000 10))) 0 = Some r /\
    Lag7 r = Some q7 /\
    In (Date r - 7, q7) (reconstruct (const_series 100 19000 10)).
Proof.
  destruct (nth_error (prepare_features Qsqrt
                         (reconstruct (const_series 100 19000 10))) 0)
    as [r|] eqn:Hr; [|vm_compute in Hr; discriminate Hr].
  destruct (lags_are_calendar_lags Qsqrt _ 0 r Hr)
    as (q1 & q7 & q90 & _ & _ & H7 & Hin7 & _).
  exists r, q7. split; [reflexivity|]. split; assumption.
Defined.
